(** * pdf_to_markdown.py: one Markdown file per PDF page

    A shallow embedding of [convert_pdf_to_markdown] from
    [src/pdf_to_markdown.py], together with the parts of [pathlib], [os]
    and the string formatting it relies on, and the properties of the
    converter stated in the specification.

    Modelling choices.
    - Python [str] values are Rocq [string]s.  [str.lower] is modelled by
      the ASCII case map; the only comparison the program makes on a
      lowered string is against the ASCII literal ['.pdf'].
    - A [pathlib.Path] is a parsed POSIX pure path: a root ([''], ['/'] or
      ['//']) and the list of its components.  [suffix] and [stem] follow
      the definition by [rfind] of CPython up to 3.12; later versions
      differ on names that end in a dot or start with several dots, none of
      which has the suffix ['.pdf'] in either.
    - The file system is a finite map from pure paths to nodes (regular
      file with its text, or directory).  Paths are looked up lexically:
      there are no symbolic links, [..] is an ordinary component and the
      working directory does not change, so two names never denote one
      file.  The empty relative path (['.']) and the roots are always
      directories.
    - [write_text] opens the file for writing, which creates or truncates
      it, and then writes.  It fails as the shape of the file system tells
      (the path is a directory, the parent is missing or is a file), or as
      the operating system decides: the world carries a table [faults] of
      the writes it refuses (nothing is touched) or cuts short (the file is
      left with the characters written so far, possibly none).  Creating a
      directory fails only for reasons the shape of the file system
      decides.
    - [stdout] holds the lines the script prints with [print], in order;
      what the libraries print themselves is not part of it.
    - [pymupdf.open] and [pymupdf4llm.to_markdown] are external: they are
      fields of a [backend] record and every call is logged in the world.
    - Effects (file system, standard output, exceptions) are threaded by a
      state-and-exception monad [M]. *)

From Stdlib Require Import String Ascii List Arith Lia NArith.
From Stdlib Require Import Decimal DecimalNat DecimalString.
From stdpp Require Import gmap strings list fin_maps.

(** ** Python strings *)

Module Str.

(** [c.lower()] on one character (ASCII letters only). *)
Definition lower_char (c : ascii) : ascii :=
  let n := N_of_ascii c in
  if ((65 <=? n) && (n <=? 90))%N then ascii_of_N (n + 32) else c.

(** [s.lower()] *)
Fixpoint lower (s : string) : string :=
  match s with
  | EmptyString => EmptyString
  | String c rest => String (lower_char c) (lower rest)
  end.

(** [s.rfind(c)]: index of the last occurrence, [None] for Python's [-1]. *)
Fixpoint rfind (c : ascii) (s : string) : option nat :=
  match s with
  | EmptyString => None
  | String a rest =>
      match rfind c rest with
      | Some i => Some (S i)
      | None => if Ascii.eqb a c then Some 0 else None
      end
  end.

(** [s[i:]] *)
Fixpoint from (i : nat) (s : string) : string :=
  match i, s with
  | 0, _ => s
  | S i', EmptyString => EmptyString
  | S i', String _ rest => from i' rest
  end.

(** [s[:i]] *)
Fixpoint upto (i : nat) (s : string) : string :=
  match i, s with
  | 0, _ => EmptyString
  | S i', EmptyString => EmptyString
  | S i', String a rest => String a (upto i' rest)
  end.

(** [s.split(c)]: never empty; [''.split(c) = ['']]. *)
Fixpoint split (c : ascii) (s : string) : list string :=
  match s with
  | EmptyString => [EmptyString]
  | String a rest =>
      if Ascii.eqb a c then EmptyString :: split c rest
      else match split c rest with
           | h :: t => String a h :: t
           | [] => [String a EmptyString]
           end
  end.

(** [sep.join(l)] *)
Fixpoint join (sep : string) (l : list string) : string :=
  match l with
  | [] => EmptyString
  | [x] => x
  | x :: rest => x +:+ sep +:+ join sep rest
  end.

(** [s[:1] == c] *)
Definition starts_with (c : ascii) (s : string) : bool :=
  match s with
  | String a _ => Ascii.eqb a c
  | EmptyString => false
  end.

(** [c in s] *)
Fixpoint contains (c : ascii) (s : string) : bool :=
  match s with
  | EmptyString => false
  | String a rest => Ascii.eqb a c || contains c rest
  end.

(** [int(s)] for a string of decimal digits, [None] for Python's
    [ValueError]. *)
Definition to_nat (s : string) : option nat :=
  match s with
  | EmptyString => None
  | _ => option_map Nat.of_uint (NilEmpty.uint_of_string s)
  end.

(** [f"{n}"] for a non-negative [int]. *)
Definition of_nat (n : nat) : string :=
  NilZero.string_of_uint (Nat.to_uint n).

(** ['0' * k] *)
Fixpoint zeros (k : nat) : string :=
  match k with
  | 0 => EmptyString
  | S k' => String "0" (zeros k')
  end.

(** [f"{n:03d}"] for a non-negative [int]: zero-filled on the left to a
    minimum width of 3, never truncated. *)
Definition format_03d (n : nat) : string :=
  let digits := of_nat n in
  zeros (3 - String.length digits) +:+ digits.

End Str.

(** ** [pathlib]: pure POSIX paths *)

Inductive anchor := Relative | Root | Root2.

Record PurePath := { root : anchor; parts : list string }.

Global Instance anchor_eq_dec : EqDecision anchor.
Proof. solve_decision. Defined.

Global Instance PurePath_eq_dec : EqDecision PurePath.
Proof. solve_decision. Defined.

Definition anchor_code (a : anchor) : nat :=
  match a with Relative => 0 | Root => 1 | Root2 => 2 end.

Definition anchor_of_code (n : nat) : anchor :=
  match n with 0 => Relative | 1 => Root | _ => Root2 end.

Global Instance PurePath_countable : Countable PurePath.
Proof.
  refine (inj_countable' (fun p => (anchor_code (root p), parts p))
            (fun c => {| root := anchor_of_code (fst c); parts := snd c |}) _).
  intros [[] ps]; reflexivity.
Defined.

Module pathlib.

(** The components kept by the parser: non-empty and different from ['.']. *)
Definition keep_part (x : string) : bool :=
  negb (String.eqb x "") && negb (String.eqb x ".").

Definition components (rel : string) : list string :=
  List.filter keep_part (Str.split "/" rel).

(** [posixpath.splitroot]: one leading slash or three and more give the
    root ['/'], exactly two give ['//']. *)
Definition splitroot (p : string) : anchor * string :=
  if negb (Str.starts_with "/" p) then (Relative, p)
  else if negb (Str.starts_with "/" (Str.from 1 p))
          || Str.starts_with "/" (Str.from 2 p)
  then (Root, Str.from 1 p)
  else (Root2, Str.from 2 p).

(** [Path(s)] *)
Definition Path (s : string) : PurePath :=
  let '(rt, rel) := splitroot s in
  {| root := rt; parts := components rel |}.

(** [str(p)] *)
Definition str (p : PurePath) : string :=
  match root p with
  | Relative =>
      match parts p with
      | [] => "."
      | _ => Str.join "/" (parts p)
      end
  | Root => "/" +:+ Str.join "/" (parts p)
  | Root2 => "//" +:+ Str.join "/" (parts p)
  end.

(** [p / s] *)
Definition joinpath (p : PurePath) (s : string) : PurePath :=
  if Str.starts_with "/" s then Path s
  else {| root := root p; parts := (parts p ++ components s)%list |}.

(** [p.name] *)
Definition name (p : PurePath) : string := List.last (parts p) "".

(** [p.suffix]: the last dot of the name and what follows, unless that dot
    is the first or the last character of the name. *)
Definition suffix (p : PurePath) : string :=
  let name := name p in
  match Str.rfind "." name with
  | Some i =>
      if ((0 <? i) && (i <? String.length name - 1))%nat then Str.from i name
      else ""
  | None => ""
  end.

(** [p.stem] *)
Definition stem (p : PurePath) : string :=
  let name := name p in
  match Str.rfind "." name with
  | Some i =>
      if ((0 <? i) && (i <? String.length name - 1))%nat then Str.upto i name
      else name
  | None => name
  end.

(** [p.parent] *)
Definition parent (p : PurePath) : PurePath :=
  {| root := root p; parts := removelast (parts p) |}.

End pathlib.

(** ** Exceptions *)

(** The exception classes the script and [pathlib] tell apart, each with
    its message.  [OSError] stands for the operating system errors that
    have no constructor of their own here ([PermissionError], a full
    device, ...); a [UnicodeEncodeError] is a [ValueError]. *)
Inductive exn :=
  | FileNotFoundError (msg : string)
  | ValueError (msg : string)
  | FileExistsError (msg : string)
  | NotADirectoryError (msg : string)
  | IsADirectoryError (msg : string)
  | OSError (msg : string)
  | RuntimeError (msg : string).

(** ** The world: file system, standard output, external calls *)

Inductive node :=
  | File (text : string)
  | Dir.

Global Instance node_eq_dec : EqDecision node.
Proof. solve_decision. Defined.

(** Calls made to the external libraries, in the order they are made. *)
Inductive call :=
  | CallOpen (filename : string)
  | CallToMarkdown (doc : string) (page : nat) (image_path : string).

(** What the operating system does to a write it does not carry out:
    [open(p, 'w')] is refused with [e] and nothing is touched, or the file
    is opened, [written] characters reach it and then [e] is raised (an
    encoding error, a full device, an input/output error). *)
Inductive fault :=
  | Refused (e : exn)
  | Cut (written : nat) (e : exn).

Record world := {
  fs : gmap PurePath node;
  stdout : list string;
  calls : list call;
  faults : PurePath -> string -> option fault;
}.

Definition set_fs (f : gmap PurePath node) (w : world) : world :=
  {| fs := f; stdout := stdout w; calls := calls w; faults := faults w |}.

(** ** The monad *)

Inductive outcome (A : Type) :=
  | Return (a : A)
  | Raise (e : exn).
Arguments Return {A} a.
Arguments Raise {A} e.

Definition M (A : Type) : Type := world -> outcome A * world.

Definition ret {A} (a : A) : M A := fun w => (Return a, w).

Definition raise {A} (e : exn) : M A := fun w => (Raise e, w).

Definition bind {A B} (m : M A) (k : A -> M B) : M B :=
  fun w =>
    match m w with
    | (Return a, w') => k a w'
    | (Raise e, w') => (Raise e, w')
    end.

(** [try: m except Exception as e: h e] *)
Definition try_except {A} (m : M A) (h : exn -> M A) : M A :=
  fun w =>
    match m w with
    | (Return a, w') => (Return a, w')
    | (Raise e, w') => h e w'
    end.

Declare Scope py_scope.
Delimit Scope py_scope with py.
Notation "x <- m ;; k" := (bind m (fun x => k))
  (at level 100, m at next level, right associativity) : py_scope.
Notation "m ;; k" := (bind m (fun _ => k))
  (at level 100, right associativity) : py_scope.
Open Scope py_scope.

(** [print(line)] *)
Definition print (line : string) : M unit :=
  fun w =>
    (Return tt, {| fs := fs w; stdout := (stdout w ++ [line])%list;
                   calls := calls w; faults := faults w |}).

(** ** [os] and [pathlib.Path] on the file system *)

(** What a path denotes.  A path without components is ['.'], ['/'] or
    ['//'], which always is a directory. *)
Definition node_at (f : gmap PurePath node) (p : PurePath) : option node :=
  match parts p with
  | [] => Some Dir
  | _ => f !! p
  end.

(** [p.exists()] *)
Definition path_exists (p : PurePath) : M bool :=
  fun w => (Return (bool_decide (is_Some (node_at (fs w) p))), w).

(** [p.is_dir()] *)
Definition is_dir (p : PurePath) : M bool :=
  fun w => (Return (bool_decide (node_at (fs w) p = Some Dir)), w).

(** [os.mkdir(p)] *)
Definition os_mkdir (p : PurePath) : M unit :=
  fun w =>
    match node_at (fs w) p with
    | Some _ => (Raise (FileExistsError (pathlib.str p)), w)
    | None =>
        match node_at (fs w) (pathlib.parent p) with
        | None => (Raise (FileNotFoundError (pathlib.str p)), w)
        | Some (File _) => (Raise (NotADirectoryError (pathlib.str p)), w)
        | Some Dir => (Return tt, set_fs (<[p := Dir]> (fs w)) w)
        end
    end.

(** [p.mkdir(parents=False, exist_ok=True)] *)
Definition mkdir_exist_ok (p : PurePath) : M unit :=
  try_except (os_mkdir p) (fun e =>
    match e with
    | FileNotFoundError _ => raise e
    | _ => d <- is_dir p ;; if d then ret tt else raise e
    end).

(** [p.mkdir(parents=True, exist_ok=True)] where [p] has root [rt] and the
    components [rev rev_parts]; the recursion on [p.parent] stops at a path
    that is its own parent. *)
Fixpoint mkdir_parents (rt : anchor) (rev_parts : list string) : M unit :=
  let self := {| root := rt; parts := rev rev_parts |} in
  try_except (os_mkdir self) (fun e =>
    match e with
    | FileNotFoundError _ =>
        match rev_parts with
        | [] => raise e
        | _ :: up => mkdir_parents rt up ;; mkdir_exist_ok self
        end
    | _ => d <- is_dir self ;; if d then ret tt else raise e
    end).

Definition mkdir (p : PurePath) : M unit :=
  mkdir_parents (root p) (rev (parts p)).

(** [open(p, 'w')] followed by [f.write(data)], for a path at which a
    regular file can be: the operating system refuses the open, or the file
    is created or truncated and the write is cut short, or the file ends up
    holding [data]. *)
Definition store (p : PurePath) (data : string) : M unit :=
  fun w =>
    match faults w p data with
    | Some (Refused e) => (Raise e, w)
    | Some (Cut written e) =>
        (Raise e, set_fs (<[p := File (Str.upto written data)]> (fs w)) w)
    | None => (Return tt, set_fs (<[p := File data]> (fs w)) w)
    end.

(** [p.write_text(data, encoding='utf-8')] *)
Definition write_text (p : PurePath) (data : string) : M unit :=
  fun w =>
    match node_at (fs w) p with
    | Some Dir => (Raise (IsADirectoryError (pathlib.str p)), w)
    | Some (File _) => store p data w
    | None =>
        match node_at (fs w) (pathlib.parent p) with
        | None => (Raise (FileNotFoundError (pathlib.str p)), w)
        | Some (File _) => (Raise (NotADirectoryError (pathlib.str p)), w)
        | Some Dir => store p data w
        end
    end.

(** ** The external libraries *)

(** [pymupdf_open f name] is [len(pymupdf.open(name))] on the file system
    [f], or the exception the library raises.  [to_markdown f doc page dir]
    is [pymupdf4llm.to_markdown(doc, pages=[page], write_images=True,
    image_path=dir)]: the file system it leaves and the text or
    exception. *)
Record backend := {
  pymupdf_open : gmap PurePath node -> string -> outcome nat;
  to_markdown :
    gmap PurePath node -> string -> nat -> string ->
    gmap PurePath node * outcome string;
}.

Definition call_open (B : backend) (filename : string) : M nat :=
  fun w =>
    (pymupdf_open B (fs w) filename,
     {| fs := fs w; stdout := stdout w;
        calls := (calls w ++ [CallOpen filename])%list;
        faults := faults w |}).

Definition call_to_markdown (B : backend) (doc : string) (page : nat)
    (image_path : string) : M string :=
  fun w =>
    let '(f', r) := to_markdown B (fs w) doc page image_path in
    (r, {| fs := f'; stdout := stdout w;
           calls := (calls w ++ [CallToMarkdown doc page image_path])%list;
           faults := faults w |}).

(** ** [convert_pdf_to_markdown] *)

Section Convert.

Variable B : backend.

(** [f"{base_name}_page_{page_num + 1:03d}.md"] *)
Definition output_filename (base_name : string) (page_num : nat) : string :=
  base_name +:+ "_page_" +:+ Str.format_03d (page_num + 1) +:+ ".md".

(** [f"  Page {page_num + 1}/{total_pages} -> {output_filename}"] *)
Definition progress_line (page_num total_pages : nat) (filename : string)
    : string :=
  "  Page " +:+ Str.of_nat (page_num + 1) +:+ "/" +:+ Str.of_nat total_pages
    +:+ " -> " +:+ filename.

(** One iteration of the loop over the pages; [output_files] is the list
    built so far, and the list with the new path appended is returned. *)
Definition convert_page (pdf_path output_dir images_dir : PurePath)
    (base_name : string) (total_pages : nat)
    (output_files : list string) (page_num : nat) : M (list string) :=
  markdown_text <-
    call_to_markdown B (pathlib.str pdf_path) page_num
      (pathlib.str images_dir) ;;
  let output_filename := output_filename base_name page_num in
  let output_path := pathlib.joinpath output_dir output_filename in
  write_text output_path markdown_text ;;
  let output_files := (output_files ++ [pathlib.str output_path])%list in
  print (progress_line page_num total_pages output_filename) ;;
  ret output_files.

(** [for page_num in pages: ...] *)
Fixpoint for_pages (pdf_path output_dir images_dir : PurePath)
    (base_name : string) (total_pages : nat)
    (pages : list nat) (output_files : list string) : M (list string) :=
  match pages with
  | [] => ret output_files
  | page_num :: rest =>
      output_files <-
        convert_page pdf_path output_dir images_dir base_name total_pages
          output_files page_num ;;
      for_pages pdf_path output_dir images_dir base_name total_pages
        rest output_files
  end.

(** Lines 56-61, "Determine output directory". *)
Definition determine_output_dir (pdf_path : PurePath)
    (output_dir : option string) : M PurePath :=
  match output_dir with
  | None => ret (pathlib.parent pdf_path)
  | Some d =>
      let output_dir := pathlib.Path d in
      mkdir output_dir ;; ret output_dir
  end.

(** Lines 56-78: the output directory, the page count, the images
    directory and the four header lines.  Returns the locals
    [(output_dir, total_pages, images_dir)]. *)
Definition prepare (pdf_path : PurePath) (output_dir : option string)
    : M (PurePath * nat * PurePath) :=
  output_dir <- determine_output_dir pdf_path output_dir ;;
  total_pages <- call_open B (pathlib.str pdf_path) ;;
  let images_dir := pathlib.joinpath output_dir "images" in
  mkdir images_dir ;;
  print ("Converting: " +:+ pathlib.str pdf_path) ;;
  print ("Total pages: " +:+ Str.of_nat total_pages) ;;
  print ("Output directory: " +:+ pathlib.str output_dir) ;;
  print ("Images directory: " +:+ pathlib.str images_dir) ;;
  ret (output_dir, total_pages, images_dir).

(** The function after its two validation checks (lines 56-103). *)
Definition convert_valid (pdf_path : PurePath) (output_dir : option string)
    : M (list string) :=
  locals <- prepare pdf_path output_dir ;;
  let '(output_dir, total_pages, images_dir) := locals in
  let base_name := pathlib.stem pdf_path in
  output_files <-
    for_pages pdf_path output_dir images_dir base_name total_pages
      (seq 0 total_pages) [] ;;
  print ("Successfully converted " +:+ Str.of_nat total_pages +:+ " pages.") ;;
  ret output_files.

Definition convert_pdf_to_markdown (pdf_path : string)
    (output_dir : option string) : M (list string) :=
  let pdf_path := pathlib.Path pdf_path in
  found <- path_exists pdf_path ;;
  if negb found then
    raise (FileNotFoundError ("PDF file not found: " +:+ pathlib.str pdf_path))
  else if negb (String.eqb (Str.lower (pathlib.suffix pdf_path)) ".pdf") then
    raise (ValueError
             ("File does not appear to be a PDF: " +:+ pathlib.str pdf_path))
  else convert_valid pdf_path output_dir.

End Convert.

(** ** The command line: [main] and the module body *)

(** [str(e)].  For an exception built from one string, as the two the
    function raises itself, this is that string; the payload of an
    exception raised by [os] or by a library stands for its message. *)
Definition exn_str (e : exn) : string :=
  match e with
  | FileNotFoundError msg => msg
  | ValueError msg => msg
  | FileExistsError msg => msg
  | NotADirectoryError msg => msg
  | IsADirectoryError msg => msg
  | OSError msg => msg
  | RuntimeError msg => msg
  end.

(** The newline character. *)
Definition nl : string := String (ascii_of_nat 10) EmptyString.

(** [__doc__], the docstring of the module (lines 2-22). *)
Definition module_doc : string :=
  Str.join nl
    [ "";
      "PDF to Markdown Converter (One Page = One File) with Image Extraction";
      "";
      "Usage:";
      "    python pdf_to_markdown.py <input.pdf> [output_dir]";
      "";
      "Each page will be saved as a separate Markdown file:";
      "    output_dir/filename_page_001.md";
      "    output_dir/filename_page_002.md";
      "    ...";
      "";
      "Images will be extracted to:";
      "    output_dir/images/filename_page_001_img_001.png";
      "    output_dir/images/filename_page_001_img_002.png";
      "    ...";
      "";
      "If output_dir is not specified, files will be created in the same directory as the PDF.";
      "";
      "Requirements:";
      "    pip install pymupdf4llm";
      "" ].

(** How a function of the script ends: by [sys.exit(code)] or by returning. *)
Inductive ended :=
  | Exited (code : nat)
  | Returned.

(** [sys.argv[i]]; the index is in range wherever the script uses it. *)
Definition argv_at (argv : list string) (i : nat) : string :=
  nth i argv EmptyString.

(** [main()], with [sys.argv] as an argument (lines 106-124). *)
Definition main (B : backend) (argv : list string) : M ended :=
  if (length argv <? 2)%nat then
    print module_doc ;; ret (Exited 1)
  else
    let pdf_path := argv_at argv 1 in
    let output_dir :=
      if (2 <? length argv)%nat then Some (argv_at argv 2) else None in
    try_except
      (convert_pdf_to_markdown B pdf_path output_dir ;; ret Returned)
      (fun e =>
         match e with
         | FileNotFoundError _ =>
             print ("Error: " +:+ exn_str e) ;; ret (Exited 1)
         | ValueError _ =>
             print ("Error: " +:+ exn_str e) ;; ret (Exited 1)
         | _ =>
             print ("Error during conversion: " +:+ exn_str e) ;;
             ret (Exited 1)
         end).

(** The script run as a program (lines 28-34 and 127-128): the guard on
    the imports, then [main()].  [installed] tells whether the two
    libraries can be imported; the result is the exit status of the
    process, [0] when the script runs to its end. *)
Definition script (B : backend) (installed : bool) (argv : list string)
    : M nat :=
  if negb installed then
    print "Error: pymupdf4llm is not installed." ;;
    print "Please install it with: pip install pymupdf4llm" ;;
    ret 1
  else
    r <- main B argv ;;
    match r with
    | Exited code => ret code
    | Returned => ret 0
    end.

(** ** Vocabulary of the statements *)

(** The world after one more line was printed. *)
Definition printed (line : string) (w : world) : world :=
  {| fs := fs w; stdout := (stdout w ++ [line])%list; calls := calls w;
     faults := faults w |}.

(** The message prefix [main] chooses for an exception. *)
Definition error_prefix (e : exn) : string :=
  match e with
  | FileNotFoundError _ => "Error: "
  | ValueError _ => "Error: "
  | _ => "Error during conversion: "
  end.

(** The check that the page numbers [k] and [k+1] both take three
    characters and come in this order as strings. *)
Definition three_digit_step (k : nat) : bool :=
  Nat.eqb (String.length (Str.format_03d k)) 3
  && Nat.eqb (String.length (Str.format_03d (S k))) 3
  && String.ltb (Str.format_03d k) (Str.format_03d (S k)).

(** The arguments [main] passes to [convert_pdf_to_markdown]. *)
Definition output_dir_arg (argv : list string) : option string :=
  if (2 <? length argv)%nat then Some (argv_at argv 2) else None.

(** A component as the parser produces them: non-empty, not ['.'], without
    a slash. *)
Definition valid_part (x : string) : bool :=
  pathlib.keep_part x && negb (Str.contains "/" x).

(** Paths whose components all are such components; every [Path s] is one. *)
Definition wf_path (p : PurePath) : Prop :=
  Forall (fun x => valid_part x = true) (parts p).

(** [q] lies strictly below the directory [d]. *)
Definition is_under (d q : PurePath) : Prop :=
  root q = root d /\ parts d `prefix_of` parts q /\ parts q <> parts d.

Global Instance is_under_dec d q : Decision (is_under d q).
Proof. unfold is_under. apply _. Defined.

(** The only difference between [f] and [f'] is that directories were
    added. *)
Definition adds_dirs (f f' : gmap PurePath node) : Prop :=
  forall q, f' !! q = f !! q \/ (f !! q = None /\ f' !! q = Some Dir).

(** What any of the [mkdir] variants may do to the world. *)
Definition mkdir_like (p : PurePath) (m : M unit) : Prop :=
  forall w r w',
    m w = (r, w') ->
    stdout w' = stdout w /\ calls w' = calls w
    /\ adds_dirs (fs w) (fs w')
    /\ (r = Return tt -> node_at (fs w') p = Some Dir).

(** No regular file at [p] or at a directory above it. *)
Definition no_file_above (f : gmap PurePath node) (p : PurePath) : Prop :=
  forall q t,
    root q = root p -> parts q `prefix_of` parts p ->
    node_at f q <> Some (File t).

(** The contract of the rendering library on the file system: what it
    writes, it writes below the directory it is given as [image_path]. *)
Definition confined (B : backend) : Prop :=
  forall f doc page dir q,
    ~ is_under (pathlib.Path dir) q ->
    fst (to_markdown B f doc page dir) !! q = f !! q.

(** The path of the Markdown file of page [page_num]. *)
Definition page_path (output_dir : PurePath) (base_name : string)
    (page_num : nat) : PurePath :=
  pathlib.joinpath output_dir (output_filename base_name page_num).

(** The output directory the function settles on. *)
Definition output_dir_of (pdf_path : PurePath) (output_dir : option string)
    : PurePath :=
  match output_dir with
  | None => pathlib.parent pdf_path
  | Some d => pathlib.Path d
  end.

(** What [str] puts in front of the last component of a path below [p]. *)
Definition dir_prefix (p : PurePath) : string :=
  match root p with
  | Relative => ""
  | Root => "/"
  | Root2 => "//"
  end +:+ fold_right (fun x acc => x +:+ "/" +:+ acc) "" (parts p).

(** The world right after the rendering call of page [i] made in the world
    [w], and what the call returns or raises. *)
Definition rendered (B : backend) (pdf_path images_dir : PurePath)
    (i : nat) (w : world) : world :=
  {| fs := fst (to_markdown B (fs w) (pathlib.str pdf_path) i
                  (pathlib.str images_dir));
     stdout := stdout w;
     calls := calls w ++ [CallToMarkdown (pathlib.str pdf_path) i
                            (pathlib.str images_dir)];
     faults := faults w |}.

Definition rendering (B : backend) (pdf_path images_dir : PurePath)
    (i : nat) (w : world) : outcome string :=
  snd (to_markdown B (fs w) (pathlib.str pdf_path) i
         (pathlib.str images_dir)).

(** The four header lines. *)
Definition header (pdf_path output_dir images_dir : PurePath) (n : nat)
    : list string :=
  [ "Converting: " +:+ pathlib.str pdf_path;
    "Total pages: " +:+ Str.of_nat n;
    "Output directory: " +:+ pathlib.str output_dir;
    "Images directory: " +:+ pathlib.str images_dir ].

Definition opened (pdf_path : PurePath) (w : world) : world :=
  {| fs := fs w; stdout := stdout w;
     calls := calls w ++ [CallOpen (pathlib.str pdf_path)];
     faults := faults w |}.

(** The world after the final summary line. *)
Definition finished (n : nat) (w : world) : world :=
  {| fs := fs w;
     stdout := stdout w ++
       ["Successfully converted " +:+ Str.of_nat n +:+ " pages."];
     calls := calls w;
     faults := faults w |}.

(** A file system on which a conversion of [n] pages into the existing
    directory [od] can go through: the source is there, [od] is a
    directory, its [images] entry is not a regular file and no page path
    is a directory. *)
Definition ready (pdf_path od : PurePath) (base_name : string) (n : nat)
    (f : gmap PurePath node) : Prop :=
  is_Some (node_at f pdf_path)
  /\ node_at f od = Some Dir
  /\ (forall t, node_at f (pathlib.joinpath od "images") <> Some (File t))
  /\ (forall j, j < n -> node_at f (page_path od base_name j) <> Some Dir).

(** ** Fixtures: a rendering library and small file systems *)

(** A library that finds [n] pages in every document, writes one image per
    rendered page into the directory it is given and returns a text naming
    the page. *)
Definition image_name (page : nat) : string :=
  "img_" +:+ Str.format_03d page +:+ ".png".

Definition stub_backend (n : nat) : backend := {|
  pymupdf_open := fun _ _ => Return n;
  to_markdown := fun f _ page dir =>
    (<[pathlib.joinpath (pathlib.Path dir) (image_name page) := File "PNG"]> f,
     Return ("text of page " +:+ Str.of_nat page));
|}.

(** The same library, except that rendering page [k] raises. *)
Definition failing_backend (n k : nat) : backend := {|
  pymupdf_open := fun _ _ => Return n;
  to_markdown := fun f doc page dir =>
    if Nat.eqb page k then (f, Raise (RuntimeError "cannot render page"))
    else to_markdown (stub_backend n) f doc page dir;
|}.

(** A library that refuses to open anything that is not a regular file. *)
Definition strict_backend (n : nat) : backend := {|
  pymupdf_open := fun f name =>
    match node_at f (pathlib.Path name) with
    | Some (File _) => Return n
    | Some Dir => Raise (RuntimeError (name +:+ " is no file"))
    | None => Raise (FileNotFoundError ("no such file: " +:+ name))
    end;
  to_markdown := to_markdown (stub_backend n);
|}.

(** A library that renders every page as the empty text and writes no
    image. *)
Definition blank_backend (n : nat) : backend := {|
  pymupdf_open := fun _ _ => Return n;
  to_markdown := fun f _ _ _ => (f, Return "");
|}.


Definition world_of (entries : list (string * node)) : world :=
  {| fs := list_to_map
             (map (fun e => (pathlib.Path (fst e), snd e)) entries);
     stdout := [];
     calls := [];
     faults := fun _ _ => None |}.

(** ** Python strings: lemmas *)

Module StrFacts.

Local Arguments String.append !_ _ / : simpl nomatch.

Lemma length_append (a b : string) :
  String.length (a +:+ b) = String.length a + String.length b.
Proof. induction a as [|c a IH]; simpl; [reflexivity | now rewrite IH]. Qed.

Lemma append_assoc (a b c : string) : (a +:+ b) +:+ c = a +:+ b +:+ c.
Proof. induction a as [|x a IH]; simpl; [reflexivity | now rewrite IH]. Qed.

Lemma append_empty_r (a : string) : a +:+ "" = a.
Proof. induction a as [|x a IH]; simpl; [reflexivity | now rewrite IH]. Qed.

Lemma append_inv_same_length (a b c d : string) :
  String.length a = String.length b -> a +:+ c = b +:+ d -> a = b /\ c = d.
Proof.
  revert b; induction a as [|x a IH]; intros [|y b] Hlen Heq;
    simpl in *; try discriminate.
  - now split.
  - injection Heq as -> Heq. injection Hlen as Hlen.
    destruct (IH b Hlen Heq) as [-> ->]. now split.
Qed.

Lemma append_inv_tail (a b c : string) : a +:+ c = b +:+ c -> a = b.
Proof.
  intros H. apply (append_inv_same_length a b c c); [|exact H].
  apply (f_equal String.length) in H. rewrite !length_append in H. lia.
Qed.

Lemma contains_app c (a b : string) :
  Str.contains c (a +:+ b) = Str.contains c a || Str.contains c b.
Proof.
  induction a as [|x a IH]; simpl; [reflexivity|].
  rewrite IH. now rewrite orb_assoc.
Qed.

Lemma contains_upto c i (s : string) :
  Str.contains c s = false -> Str.contains c (Str.upto i s) = false.
Proof.
  revert i; induction s as [|x s IH]; intros [|i] H; simpl in *; auto.
  apply orb_false_iff in H as [-> H]. simpl. now apply IH.
Qed.

Lemma split_no_sep c (s : string) :
  Str.contains c s = false -> Str.split c s = [s].
Proof.
  induction s as [|x s IH]; simpl; [reflexivity|].
  intros H. apply orb_false_iff in H as [-> H]. now rewrite (IH H).
Qed.

Lemma split_app_sep c (x rest : string) :
  Str.contains c x = false ->
  Str.split c (x +:+ String c rest) = x :: Str.split c rest.
Proof.
  induction x as [|a x IH]; simpl.
  - intros _. now rewrite Ascii.eqb_refl.
  - intros H. apply orb_false_iff in H as [-> H]. now rewrite (IH H).
Qed.

Lemma split_pieces c (s : string) :
  Forall (fun x => Str.contains c x = false) (Str.split c s).
Proof.
  induction s as [|a s IH]; simpl.
  - repeat constructor.
  - destruct (Ascii.eqb a c) eqn:E.
    + constructor; [reflexivity | exact IH].
    + destruct (Str.split c s) as [|h t].
      * repeat constructor. simpl. now rewrite E.
      * inversion IH; subst. constructor; [|assumption].
        simpl. now rewrite E.
Qed.

(** Decimal digits. *)

Lemma digits_no_slash (s : string) d :
  NilEmpty.uint_of_string s = Some d -> Str.contains "/" s = false.
Proof.
  revert d; induction s as [|a s IH]; intros d; simpl; [reflexivity|].
  destruct (NilEmpty.uint_of_string s) as [d0|]; [|discriminate].
  intros H. rewrite (IH d0 eq_refl), orb_false_r.
  apply uint_of_char_spec in H.
  repeat (destruct H as [[-> _] | H]; [reflexivity|]).
  destruct H as [-> _]. reflexivity.
Qed.

Lemma of_nat_digits n :
  NilEmpty.uint_of_string (Str.of_nat n) = Some (Nat.to_uint n).
Proof.
  unfold Str.of_nat, NilZero.string_of_uint.
  destruct (Nat.to_uint n) eqn:E; try apply NilEmpty.usu.
  exfalso. pose proof (f_equal Nat.of_uint E) as E0.
  rewrite DecimalNat.Unsigned.of_to in E0. subst n. discriminate E.
Qed.

Lemma of_nat_nonempty n : Str.of_nat n <> "".
Proof.
  intros H. pose proof (of_nat_digits n) as D. rewrite H in D. simpl in D.
  injection D as D. pose proof (f_equal Nat.of_uint D) as D0.
  rewrite DecimalNat.Unsigned.of_to in D0. subst n. discriminate D.
Qed.

Lemma to_nat_of_nat n : Str.to_nat (Str.of_nat n) = Some n.
Proof.
  unfold Str.to_nat. pose proof (of_nat_nonempty n).
  destruct (Str.of_nat n) eqn:E; [congruence|]. rewrite <- E.
  rewrite of_nat_digits. simpl. now rewrite DecimalNat.Unsigned.of_to.
Qed.

Lemma of_nat_inj n m : Str.of_nat n = Str.of_nat m -> n = m.
Proof.
  intros H. apply (f_equal Str.to_nat) in H.
  rewrite !to_nat_of_nat in H. congruence.
Qed.

Lemma zeros_digits k (s : string) d :
  NilEmpty.uint_of_string s = Some d ->
  exists d', NilEmpty.uint_of_string (Str.zeros k +:+ s) = Some d'
             /\ Nat.of_uint d' = Nat.of_uint d.
Proof.
  intros H. induction k as [|k [d' [E V]]]; simpl.
  - now exists d.
  - rewrite E. simpl. exists (D0 d'). split; [reflexivity|]. exact V.
Qed.

Lemma format_03d_digits n :
  exists d, NilEmpty.uint_of_string (Str.format_03d n) = Some d
            /\ Nat.of_uint d = n.
Proof.
  unfold Str.format_03d.
  destruct (zeros_digits (3 - String.length (Str.of_nat n)) _ _
              (of_nat_digits n)) as [d [E V]].
  exists d. split; [exact E|]. now rewrite V, DecimalNat.Unsigned.of_to.
Qed.

Lemma format_03d_inj n m : Str.format_03d n = Str.format_03d m -> n = m.
Proof.
  intros H. destruct (format_03d_digits n) as [d [E V]].
  destruct (format_03d_digits m) as [d' [E' V']].
  rewrite H in E. congruence.
Qed.

Lemma format_03d_no_slash n : Str.contains "/" (Str.format_03d n) = false.
Proof.
  destruct (format_03d_digits n) as [d [E _]]. exact (digits_no_slash _ _ E).
Qed.

Lemma zeros_length k : String.length (Str.zeros k) = k.
Proof. induction k; simpl; congruence. Qed.

Lemma format_03d_length n : 3 <= String.length (Str.format_03d n).
Proof.
  unfold Str.format_03d. rewrite length_append, zeros_length. lia.
Qed.

Lemma format_03d_wide n :
  3 <= String.length (Str.of_nat n) -> Str.format_03d n = Str.of_nat n.
Proof.
  intros H. unfold Str.format_03d.
  replace (3 - String.length (Str.of_nat n)) with 0 by lia. reflexivity.
Qed.

Lemma to_nat_format_03d n : Str.to_nat (Str.format_03d n) = Some n.
Proof.
  destruct (format_03d_digits n) as [d [E V]].
  pose proof (format_03d_length n) as L. unfold Str.to_nat.
  destruct (Str.format_03d n); [simpl in L; lia|].
  rewrite E. simpl. now rewrite V.
Qed.

End StrFacts.

(** ** [pathlib]: lemmas *)

Module PathFacts.

Import StrFacts.
Local Arguments String.append !_ _ / : simpl nomatch.

Lemma components_valid rel :
  Forall (fun x => valid_part x = true) (pathlib.components rel).
Proof.
  unfold pathlib.components.
  pose proof (split_pieces "/" rel) as H.
  induction H as [|x l Hx _ IH]; simpl; [constructor|].
  destruct (pathlib.keep_part x) eqn:K; [|exact IH].
  constructor; [|exact IH]. unfold valid_part. now rewrite K, Hx.
Qed.

Lemma wf_Path s : wf_path (pathlib.Path s).
Proof.
  unfold wf_path, pathlib.Path. destruct (pathlib.splitroot s) as [rt rel].
  apply components_valid.
Qed.

Lemma Forall_removelast {A} (P : A -> Prop) (l : list A) :
  Forall P l -> Forall P (removelast l).
Proof.
  induction 1 as [|x l Hx Hl IH]; simpl; [constructor|].
  destruct l; [constructor|]. constructor; assumption.
Qed.

Lemma wf_parent p : wf_path p -> wf_path (pathlib.parent p).
Proof. apply Forall_removelast. Qed.

Lemma valid_part_inv x :
  valid_part x = true -> x <> "" /\ x <> "." /\ Str.contains "/" x = false.
Proof.
  unfold valid_part, pathlib.keep_part. intros H.
  apply andb_true_iff in H as [H1 H3]. apply andb_true_iff in H1 as [H1 H2].
  apply negb_true_iff in H1, H2, H3.
  apply String.eqb_neq in H1, H2. auto.
Qed.

Lemma valid_part_intro x :
  x <> "" -> x <> "." -> Str.contains "/" x = false -> valid_part x = true.
Proof.
  intros H1 H2 H3. unfold valid_part, pathlib.keep_part.
  apply String.eqb_neq in H1, H2. now rewrite H1, H2, H3.
Qed.

Lemma valid_part_starts x :
  valid_part x = true -> Str.starts_with "/" x = false.
Proof.
  intros H. apply valid_part_inv in H as (_ & _ & H).
  destruct x as [|a x]; [reflexivity|]. simpl in *.
  now apply orb_false_iff in H as [-> _].
Qed.

Lemma components_single x :
  valid_part x = true -> pathlib.components x = [x].
Proof.
  intros H. unfold pathlib.components.
  pose proof (valid_part_inv _ H) as (_ & _ & Hs).
  rewrite (split_no_sep _ _ Hs). simpl.
  unfold valid_part in H. apply andb_true_iff in H as [-> _]. reflexivity.
Qed.

Lemma joinpath_single p x :
  valid_part x = true ->
  pathlib.joinpath p x = {| root := root p; parts := parts p ++ [x] |}.
Proof.
  intros H. unfold pathlib.joinpath.
  now rewrite (valid_part_starts _ H), (components_single _ H).
Qed.

Lemma wf_joinpath p x : wf_path p -> wf_path (pathlib.joinpath p x).
Proof.
  intros H. unfold pathlib.joinpath.
  destruct (Str.starts_with "/" x); [apply wf_Path|].
  unfold wf_path; simpl. apply Forall_app. split; [exact H|].
  apply components_valid.
Qed.

Lemma name_joinpath p x :
  valid_part x = true -> pathlib.name (pathlib.joinpath p x) = x.
Proof.
  intros H. rewrite (joinpath_single _ _ H). unfold pathlib.name; simpl.
  apply last_last.
Qed.

Lemma parent_joinpath p x :
  valid_part x = true -> pathlib.parent (pathlib.joinpath p x) = p.
Proof.
  intros H. rewrite (joinpath_single _ _ H). unfold pathlib.parent; simpl.
  rewrite removelast_last. now destruct p.
Qed.

Lemma join_snoc (l : list string) x :
  Str.join "/" (l ++ [x]) = fold_right (fun y acc => y +:+ "/" +:+ acc) "" l +:+ x.
Proof.
  induction l as [|y l IH]; [reflexivity|].
  change ((y :: l) ++ [x])%list with (y :: (l ++ [x]))%list.
  change (Str.join "/" (y :: (l ++ [x])%list)) with
    (match (l ++ [x])%list with
     | [] => y
     | _ => y +:+ "/" +:+ Str.join "/" (l ++ [x])
     end).
  destruct (l ++ [x])%list eqn:E; [now destruct l|].
  rewrite IH. simpl fold_right. now rewrite !append_assoc.
Qed.

Lemma str_joinpath p x :
  valid_part x = true ->
  pathlib.str (pathlib.joinpath p x) = dir_prefix p +:+ x.
Proof.
  intros H. rewrite (joinpath_single _ _ H).
  unfold pathlib.str, dir_prefix; simpl. rewrite join_snoc.
  destruct (root p); simpl.
  - destruct (parts p ++ [x])%list eqn:E; [now destruct (parts p)|].
    reflexivity.
  - reflexivity.
  - reflexivity.
Qed.

(** [Path(str(p)) == p] *)

Lemma components_join (l : list string) :
  Forall (fun x => valid_part x = true) l ->
  pathlib.components (Str.join "/" l) = l.
Proof.
  induction 1 as [|x l Hx Hl IH]; [reflexivity|].
  destruct l as [|y l]; [now apply components_single|].
  change (Str.join "/" (x :: y :: l)) with
    (x +:+ String "/" (Str.join "/" (y :: l))).
  pose proof (valid_part_inv _ Hx) as (_ & _ & Hs).
  unfold pathlib.components in *. rewrite (split_app_sep _ _ _ Hs).
  cbn [List.filter]. rewrite IH.
  unfold valid_part in Hx. apply andb_true_iff in Hx as [-> _]. reflexivity.
Qed.

Lemma join_head (x : string) (l : list string) :
  valid_part x = true ->
  exists a rest, Str.join "/" (x :: l) = String a rest /\ Ascii.eqb a "/" = false.
Proof.
  intros H. pose proof (valid_part_inv _ H) as (Hne & _ & Hs).
  destruct x as [|a x]; [congruence|]. simpl in Hs.
  apply orb_false_iff in Hs as [Ha _].
  destruct l; simpl; eauto.
Qed.

Lemma Path_str p : wf_path p -> pathlib.Path (pathlib.str p) = p.
Proof.
  destruct p as [rt ps]. unfold wf_path; simpl. intros H.
  unfold pathlib.str; simpl.
  destruct ps as [|x l].
  - destruct rt; reflexivity.
  - pose proof (components_join _ H) as C.
    inversion H as [|? ? Hx _]; subst.
    destruct (join_head x l Hx) as (a & rest & E & Ha).
    rewrite E in *.
    destruct rt; unfold pathlib.Path, pathlib.splitroot; simpl;
      rewrite Ha; simpl; now rewrite C.
Qed.

(** The stem and the file names built from it. *)

Lemma name_no_slash p : wf_path p -> Str.contains "/" (pathlib.name p) = false.
Proof.
  unfold wf_path, pathlib.name. intros H.
  induction H as [|x l Hx Hl IH]; [reflexivity|].
  destruct l; [|exact IH]. simpl.
  now apply valid_part_inv in Hx as (_ & _ & Hx).
Qed.

Lemma stem_no_slash p : wf_path p -> Str.contains "/" (pathlib.stem p) = false.
Proof.
  intros H. apply name_no_slash in H. unfold pathlib.stem.
  destruct (Str.rfind "." (pathlib.name p)) as [i|]; [|exact H].
  destruct (_ && _)%nat; [|exact H]. now apply contains_upto.
Qed.

Lemma output_filename_length base i :
  12 <= String.length (output_filename base i).
Proof.
  unfold output_filename. rewrite !length_append.
  pose proof (format_03d_length (i + 1)). simpl. lia.
Qed.

Lemma output_filename_valid base i :
  Str.contains "/" base = false -> valid_part (output_filename base i) = true.
Proof.
  intros H. pose proof (output_filename_length base i) as L.
  apply valid_part_intro.
  - intros E. rewrite E in L. simpl in L. lia.
  - intros E. rewrite E in L. simpl in L. lia.
  - unfold output_filename. rewrite !contains_app, H, format_03d_no_slash.
    reflexivity.
Qed.

Lemma output_filename_inj base i j :
  output_filename base i = output_filename base j -> i = j.
Proof.
  unfold output_filename. intros H.
  apply String.app_inj in H. apply String.app_inj in H.
  apply append_inv_tail in H. apply format_03d_inj in H. lia.
Qed.

Lemma output_filename_not_images base i : output_filename base i <> "images".
Proof.
  intros E. pose proof (output_filename_length base i) as L.
  rewrite E in L. simpl in L. lia.
Qed.

Section Pages.

Variable output_dir : PurePath.
Variable base_name : string.
Hypothesis base_ok : Str.contains "/" base_name = false.

Lemma page_path_eq i :
  page_path output_dir base_name i =
  {| root := root output_dir;
     parts := parts output_dir ++ [output_filename base_name i] |}.
Proof.
  apply joinpath_single, output_filename_valid, base_ok.
Qed.

Lemma page_path_inj i j :
  page_path output_dir base_name i = page_path output_dir base_name j -> i = j.
Proof.
  rewrite !page_path_eq. intros [= H].
  apply app_inj_tail in H as [_ H]. now apply output_filename_inj in H.
Qed.

Lemma page_path_str i :
  pathlib.str (page_path output_dir base_name i) =
  dir_prefix output_dir +:+ output_filename base_name i.
Proof. apply str_joinpath, output_filename_valid, base_ok. Qed.

Lemma page_path_str_inj i j :
  pathlib.str (page_path output_dir base_name i)
  = pathlib.str (page_path output_dir base_name j) -> i = j.
Proof.
  rewrite !page_path_str. intros H. apply String.app_inj in H.
  now apply output_filename_inj in H.
Qed.

Lemma page_paths_NoDup n :
  NoDup (map (fun i => pathlib.str (page_path output_dir base_name i))
           (seq 0 n)).
Proof.
  assert (I : Inj (=) (=)
                (fun i => pathlib.str (page_path output_dir base_name i)))
    by (intros i j; apply page_path_str_inj).
  apply (NoDup_fmap_2 _ _ (NoDup_seq 0 n)).
Qed.

Lemma page_path_name i :
  pathlib.name (page_path output_dir base_name i) =
  output_filename base_name i.
Proof. apply name_joinpath, output_filename_valid, base_ok. Qed.

Lemma page_path_parent i :
  pathlib.parent (page_path output_dir base_name i) = output_dir.
Proof. apply parent_joinpath, output_filename_valid, base_ok. Qed.

Lemma page_path_parts i : parts (page_path output_dir base_name i) <> [].
Proof. rewrite page_path_eq; simpl. now destruct (parts output_dir). Qed.

Lemma images_eq :
  pathlib.joinpath output_dir "images" =
  {| root := root output_dir; parts := parts output_dir ++ ["images"] |}.
Proof. now apply joinpath_single. Qed.

Lemma page_path_not_images i :
  page_path output_dir base_name i <> pathlib.joinpath output_dir "images".
Proof.
  rewrite page_path_eq, images_eq. intros [= H].
  apply app_inj_tail in H as [_ H].
  now apply output_filename_not_images in H.
Qed.

Lemma page_path_not_under_images i :
  ~ is_under (pathlib.joinpath output_dir "images")
      (page_path output_dir base_name i).
Proof.
  rewrite page_path_eq, images_eq. intros (_ & [k Hk] & _); simpl in *.
  rewrite <- List.app_assoc in Hk. apply app_inv_head in Hk.
  injection Hk as Hk _. now apply output_filename_not_images in Hk.
Qed.

End Pages.

End PathFacts.

(** ** The file system: lemmas *)

Module FsFacts.

Lemma adds_dirs_refl f : adds_dirs f f.
Proof. intros q. now left. Qed.

Lemma adds_dirs_trans f g h : adds_dirs f g -> adds_dirs g h -> adds_dirs f h.
Proof.
  intros Hfg Hgh q. destruct (Hfg q) as [E|[E1 E2]], (Hgh q) as [E'|[E1' E2']].
  - left. congruence.
  - right. split; congruence.
  - right. split; congruence.
  - congruence.
Qed.

Lemma adds_dirs_insert (f : gmap PurePath node) p :
  f !! p = None -> adds_dirs f (<[p := Dir]> f).
Proof.
  intros H q. destruct (decide (p = q)) as [<-|Hne].
  - right. split; [exact H | apply lookup_insert_eq].
  - left. now apply lookup_insert_ne.
Qed.

(** Existing entries survive, and every regular file was there before. *)
Lemma adds_dirs_keeps (f f' : gmap PurePath node) q v :
  adds_dirs f f' -> f !! q = Some v -> f' !! q = Some v.
Proof. intros H E. destruct (H q) as [->|[E' _]]; congruence. Qed.

Lemma adds_dirs_file (f f' : gmap PurePath node) q t :
  adds_dirs f f' -> f' !! q = Some (File t) -> f !! q = Some (File t).
Proof. intros H E. destruct (H q) as [<-|[_ E']]; congruence. Qed.

Lemma adds_dirs_node_at f f' q v :
  adds_dirs f f' -> node_at f q = Some v -> node_at f' q = Some v.
Proof.
  unfold node_at. destruct (parts q); [auto|]. apply adds_dirs_keeps.
Qed.

Lemma adds_dirs_node_at_file f f' q t :
  adds_dirs f f' -> node_at f' q = Some (File t) -> node_at f q = Some (File t).
Proof.
  unfold node_at. destruct (parts q); [auto|]. apply adds_dirs_file.
Qed.

Lemma node_at_None f p : node_at f p = None -> parts p <> [] /\ f !! p = None.
Proof. unfold node_at. destruct (parts p); [discriminate|]. now split. Qed.

Lemma node_at_lookup f p : parts p <> [] -> node_at f p = f !! p.
Proof. unfold node_at. now destruct (parts p). Qed.

Lemma node_at_insert_eq (f : gmap PurePath node) p v :
  parts p <> [] -> node_at (<[p := v]> f) p = Some v.
Proof. intros H. rewrite (node_at_lookup _ _ H). apply lookup_insert_eq. Qed.

Lemma node_at_insert_dir (f : gmap PurePath node) p :
  node_at (<[p := Dir]> f) p = Some Dir.
Proof.
  unfold node_at. destruct (parts p); [reflexivity | apply lookup_insert_eq].
Qed.

Lemma node_at_insert_ne (f : gmap PurePath node) p q v :
  p <> q -> node_at (<[p := v]> f) q = node_at f q.
Proof.
  intros H. unfold node_at. destruct (parts q); [reflexivity|].
  now apply lookup_insert_ne.
Qed.

(** [os.mkdir] *)

Lemma os_mkdir_Return p w u w' :
  os_mkdir p w = (Return u, w') ->
  node_at (fs w) p = None /\ node_at (fs w) (pathlib.parent p) = Some Dir
  /\ w' = set_fs (<[p := Dir]> (fs w)) w.
Proof.
  unfold os_mkdir. destruct (node_at (fs w) p); [discriminate|].
  destruct (node_at (fs w) (pathlib.parent p)) as [[t|]|]; try discriminate.
  intros [= <-]. auto.
Qed.

Lemma os_mkdir_Raise p w e w' :
  os_mkdir p w = (Raise e, w') ->
  w' = w /\
  match e with
  | FileNotFoundError _ =>
      node_at (fs w) p = None /\ node_at (fs w) (pathlib.parent p) = None
  | FileExistsError _ => is_Some (node_at (fs w) p)
  | NotADirectoryError _ =>
      node_at (fs w) p = None
      /\ exists t, node_at (fs w) (pathlib.parent p) = Some (File t)
  | _ => False
  end.
Proof.
  unfold os_mkdir. destruct (node_at (fs w) p) eqn:E.
  - intros [= <- <-]. split; [reflexivity | eauto].
  - destruct (node_at (fs w) (pathlib.parent p)) as [[t|]|] eqn:E';
      intros [= <- <-]; try discriminate; split; eauto.
Qed.

Lemma is_dir_branch p e w r w' :
  (d <- is_dir p ;; if d then ret tt else raise e) w = (r, w') ->
  w' = w /\ (r = Return tt -> node_at (fs w) p = Some Dir).
Proof.
  unfold bind, is_dir, ret, raise.
  destruct (bool_decide _) eqn:D; intros [= <- <-]; split; auto.
  - intros _. now apply bool_decide_eq_true in D.
  - discriminate.
Qed.

Lemma mkdir_exist_ok_like p : mkdir_like p (mkdir_exist_ok p).
Proof.
  intros w r w'. unfold mkdir_exist_ok, try_except.
  destruct (os_mkdir p w) as [[u|e] w1] eqn:E.
  - apply os_mkdir_Return in E as (Hp & _ & ->).
    intros [= <- <-]. simpl. repeat split; auto.
    + apply adds_dirs_insert. now apply node_at_None in Hp.
    + intros _. apply node_at_insert_dir.
  - apply os_mkdir_Raise in E as [-> He].
    destruct e; try (intros [= <- <-]; repeat split;
                     auto using adds_dirs_refl; discriminate);
      intros H; apply is_dir_branch in H as [-> Hd];
      repeat split; auto using adds_dirs_refl.
Qed.

Lemma mkdir_parents_eq rt rp :
  mkdir_parents rt rp =
  let self := {| root := rt; parts := rev rp |} in
  try_except (os_mkdir self) (fun e =>
    match e with
    | FileNotFoundError _ =>
        match rp with
        | [] => raise e
        | _ :: up => mkdir_parents rt up ;; mkdir_exist_ok self
        end
    | _ => d <- is_dir self ;; if d then ret tt else raise e
    end).
Proof. destruct rp; reflexivity. Qed.

Lemma mkdir_parents_like rt rp :
  mkdir_like {| root := rt; parts := rev rp |} (mkdir_parents rt rp).
Proof.
  induction rp as [|x up IH]; intros w r w'; rewrite mkdir_parents_eq;
    cbv zeta; unfold try_except;
    match goal with |- context [os_mkdir ?p w] =>
      destruct (os_mkdir p w) as [[u|e] w1] eqn:E
    end.
  1,3: apply os_mkdir_Return in E as (Hp & _ & ->);
       intros [= <- <-]; simpl; repeat split; auto;
       try (apply adds_dirs_insert; now apply node_at_None in Hp);
       try (intros _; apply node_at_insert_dir).
  - apply os_mkdir_Raise in E as [-> He].
    destruct e; try (intros [= <- <-]; repeat split;
                     auto using adds_dirs_refl; discriminate);
      intros H; apply is_dir_branch in H as [-> Hd];
      repeat split; auto using adds_dirs_refl.
  - apply os_mkdir_Raise in E as [-> He].
    destruct e;
      try (intros H; apply is_dir_branch in H as [-> Hd];
           repeat split; auto using adds_dirs_refl).
    unfold bind.
    destruct (mkdir_parents rt up w) as [[u|e] w1] eqn:E1.
    + apply IH in E1 as (So & Ca & Ad & _).
      intros H. apply mkdir_exist_ok_like in H as (So' & Ca' & Ad' & Ok').
      repeat split; try congruence; [eapply adds_dirs_trans; eauto | exact Ok'].
    + apply IH in E1 as (So & Ca & Ad & _).
      intros [= <- <-]. repeat split; auto. discriminate.
Qed.

Lemma mkdir_like_mkdir p : mkdir_like p (mkdir p).
Proof.
  unfold mkdir. pose proof (mkdir_parents_like (root p) (rev (parts p))) as H.
  rewrite rev_involutive in H. now destruct p.
Qed.

(** Creating a directory that exists changes nothing and does not fail. *)
Lemma mkdir_existing p w :
  node_at (fs w) p = Some Dir -> mkdir p w = (Return tt, w).
Proof.
  intros H. unfold mkdir. rewrite mkdir_parents_eq. cbv zeta.
  rewrite rev_involutive. replace {| root := root p; parts := parts p |}
    with p by now destruct p.
  unfold try_except, os_mkdir. rewrite H.
  unfold bind, is_dir, ret. rewrite H.
  now rewrite bool_decide_eq_true_2.
Qed.

(** Creating a missing directory below an existing one adds just it. *)
Lemma mkdir_fresh p w :
  node_at (fs w) p = None ->
  node_at (fs w) (pathlib.parent p) = Some Dir ->
  mkdir p w = (Return tt, set_fs (<[p := Dir]> (fs w)) w).
Proof.
  intros Hp Hd. unfold mkdir. rewrite mkdir_parents_eq. cbv zeta.
  rewrite rev_involutive. replace {| root := root p; parts := parts p |}
    with p by now destruct p.
  unfold try_except, os_mkdir. now rewrite Hp, Hd.
Qed.

(** [mkdir] succeeds when no regular file is in the way. *)
Lemma mkdir_parents_succeeds rt rp w :
  (forall ps t, ps `suffix_of` rp ->
     node_at (fs w) {| root := rt; parts := rev ps |} <> Some (File t)) ->
  exists w', mkdir_parents rt rp w = (Return tt, w').
Proof.
  revert w. induction rp as [|x up IH]; intros w Hfree;
    rewrite mkdir_parents_eq; cbv zeta; unfold try_except;
    match goal with |- context [os_mkdir ?p w] =>
      destruct (os_mkdir p w) as [[[]|e] w1] eqn:E
    end; eauto.
  - apply os_mkdir_Raise in E as [-> He]. simpl in He.
    destruct e; try contradiction; simpl;
      try (destruct He as [He _]; discriminate He).
    unfold bind, is_dir, ret. simpl. eauto.
  - apply os_mkdir_Raise in E as [-> He].
    assert (Hself : forall t,
      node_at (fs w) {| root := rt; parts := rev (x :: up) |}
        <> Some (File t)) by (intros t; now apply Hfree).
    assert (Hpar : pathlib.parent {| root := rt; parts := rev (x :: up) |}
                   = {| root := rt; parts := rev up |}).
    { unfold pathlib.parent; simpl. now rewrite removelast_last. }
    destruct e; try contradiction.
    + (* the parent is missing: create it, then the directory itself *)
      destruct (IH w) as [w1 E1].
      { intros ps t Hs. apply Hfree. now apply suffix_cons_r. }
      unfold bind. rewrite E1.
      pose proof (mkdir_parents_like _ _ _ _ _ E1) as (_ & _ & Ad & Okp).
      specialize (Okp eq_refl).
      unfold mkdir_exist_ok, try_except, os_mkdir. rewrite Hpar, Okp.
      destruct (node_at (fs w1) {| root := rt; parts := rev (x :: up) |})
        as [[t|]|] eqn:N; eauto.
      * exfalso. apply (Hself t).
        eapply adds_dirs_node_at_file; eauto.
      * unfold bind, is_dir, ret. rewrite N.
        rewrite bool_decide_eq_true_2; eauto.
    + (* something is there: it is a directory *)
      destruct He as [[t|] N].
      * exfalso. now apply (Hself t).
      * unfold bind, is_dir, ret. rewrite N.
        rewrite bool_decide_eq_true_2; eauto.
    + (* the parent is a regular file *)
      destruct He as (_ & t & N). rewrite Hpar in N.
      exfalso. eapply (Hfree up t); [|exact N]. now apply suffix_cons_r.
Qed.

Lemma mkdir_succeeds p w :
  no_file_above (fs w) p -> exists w', mkdir p w = (Return tt, w').
Proof.
  intros H. unfold mkdir. apply mkdir_parents_succeeds.
  intros ps t [k Hk]. apply H; simpl; [reflexivity|].
  exists (rev k). apply (f_equal (@rev _)) in Hk.
  rewrite rev_involutive, rev_app_distr in Hk. exact Hk.
Qed.

(** [write_text] *)

Lemma store_Return p data w u w' :
  store p data w = (Return u, w') ->
  w' = set_fs (<[p := File data]> (fs w)) w.
Proof.
  unfold store. destruct (faults w p data) as [[e|k e]|]; try discriminate.
  now intros [= <-].
Qed.

Lemma store_Raise p data w e w' :
  store p data w = (Raise e, w') ->
  w' = w
  \/ exists k, w' = set_fs (<[p := File (Str.upto k data)]> (fs w)) w.
Proof.
  unfold store. destruct (faults w p data) as [[e0|k e0]|]; try discriminate.
  - intros [= _ <-]. now left.
  - intros [= _ <-]. right. now exists k.
Qed.

Lemma write_text_Return p data w u w' :
  write_text p data w = (Return u, w') ->
  w' = set_fs (<[p := File data]> (fs w)) w /\ parts p <> [].
Proof.
  unfold write_text. destruct (node_at (fs w) p) as [[t|]|] eqn:E;
    try discriminate.
  - intros H. apply store_Return in H. split; [exact H|].
    unfold node_at in E. now destruct (parts p).
  - destruct (node_at (fs w) (pathlib.parent p)) as [[t|]|]; try discriminate.
    intros H. apply store_Return in H. split; [exact H|].
    now apply node_at_None in E.
Qed.

(** A write that raises left the world as it was, or the file opened and
    holding the first characters of the text. *)
Lemma write_text_Raise p data w e w' :
  write_text p data w = (Raise e, w') ->
  w' = w
  \/ exists k, w' = set_fs (<[p := File (Str.upto k data)]> (fs w)) w.
Proof.
  unfold write_text. destruct (node_at (fs w) p) as [[t|]|];
    try (intros [= _ <-]; now left); try apply store_Raise.
  destruct (node_at (fs w) (pathlib.parent p)) as [[t|]|];
    try (intros [= _ <-]; now left); apply store_Raise.
Qed.

(** A write succeeds on a regular file, and on a missing path whose parent
    is a directory, when the operating system carries it out. *)
Lemma write_text_ok p data w :
  node_at (fs w) p <> Some Dir ->
  node_at (fs w) (pathlib.parent p) = Some Dir ->
  faults w p data = None ->
  write_text p data w = (Return tt, set_fs (<[p := File data]> (fs w)) w).
Proof.
  intros Hp Hd Hf. unfold write_text, store. rewrite Hf.
  destruct (node_at (fs w) p) as [[t|]|]; [reflexivity|congruence|].
  now rewrite Hd.
Qed.

(** The table of faults is never changed. *)
Lemma mkdir_exist_ok_faults p w r w' :
  mkdir_exist_ok p w = (r, w') -> faults w' = faults w.
Proof.
  unfold mkdir_exist_ok, try_except.
  destruct (os_mkdir p w) as [[u|e] w1] eqn:E.
  - apply os_mkdir_Return in E as (_ & _ & ->). now intros [= _ <-].
  - apply os_mkdir_Raise in E as [-> _].
    destruct e; try (now intros [= _ <-]);
      intros H; now apply is_dir_branch in H as [-> _].
Qed.

Lemma mkdir_parents_faults rt rp w r w' :
  mkdir_parents rt rp w = (r, w') -> faults w' = faults w.
Proof.
  revert w r w'. induction rp as [|x up IH]; intros w r w';
    rewrite mkdir_parents_eq; cbv zeta; unfold try_except;
    match goal with |- context [os_mkdir ?p w] =>
      destruct (os_mkdir p w) as [[u|e] w1] eqn:E
    end.
  1,3: apply os_mkdir_Return in E as (_ & _ & ->); now intros [= _ <-].
  - apply os_mkdir_Raise in E as [-> _].
    destruct e; try (now intros [= _ <-]);
      intros H; now apply is_dir_branch in H as [-> _].
  - apply os_mkdir_Raise in E as [-> _].
    destruct e;
      try (intros H; now apply is_dir_branch in H as [-> _]).
    unfold bind.
    destruct (mkdir_parents rt up w) as [[u|e] w1] eqn:E1;
      apply IH in E1.
    + intros H. apply mkdir_exist_ok_faults in H. congruence.
    + now intros [= _ <-].
Qed.

Lemma mkdir_faults p w r w' : mkdir p w = (r, w') -> faults w' = faults w.
Proof. apply mkdir_parents_faults. Qed.

Lemma write_text_faults p data w r w' :
  write_text p data w = (r, w') -> faults w' = faults w.
Proof.
  destruct r as [u|e]; intros H.
  - now apply write_text_Return in H as [-> _].
  - now apply write_text_Raise in H as [->|[k ->]].
Qed.

End FsFacts.

(** ** The loop over the pages: lemmas *)

Module LoopFacts.

Import FsFacts.

Section Loop.

Variable B : backend.
Variables pdf_path output_dir images_dir : PurePath.
Variable base_name : string.
Variable total_pages : nat.

Local Abbreviation call_of :=
  (fun i => CallToMarkdown (pathlib.str pdf_path) i (pathlib.str images_dir)).
Local Abbreviation line_of :=
  (fun i => progress_line i total_pages (output_filename base_name i)).
Local Abbreviation path_of := (page_path output_dir base_name).
Local Abbreviation page :=
  (convert_page B pdf_path output_dir images_dir base_name total_pages).
Local Abbreviation loop :=
  (for_pages B pdf_path output_dir images_dir base_name total_pages).
Local Abbreviation world_after := (rendered B pdf_path images_dir).
Local Abbreviation text_of := (rendering B pdf_path images_dir).

Lemma call_to_markdown_eq i w :
  call_to_markdown B (pathlib.str pdf_path) i (pathlib.str images_dir) w
  = (text_of i w, world_after i w).
Proof.
  unfold call_to_markdown, rendering, rendered.
  now destruct (to_markdown B _ _ _ _).
Qed.

Lemma convert_page_Return acc i w acc' w' :
  page acc i w = (Return acc', w') ->
  exists t,
    text_of i w = Return t
    /\ acc' = acc ++ [pathlib.str (path_of i)]
    /\ fs w' = <[path_of i := File t]> (fs (world_after i w))
    /\ stdout w' = stdout w ++ [line_of i]
    /\ calls w' = calls w ++ [call_of i]
    /\ parts (path_of i) <> [].
Proof.
  unfold convert_page, bind. rewrite call_to_markdown_eq.
  destruct (text_of i w) as [t|e] eqn:R; [|discriminate].
  fold (page_path output_dir base_name i).
  destruct (write_text (path_of i) t (world_after i w)) as [[u|e] w1] eqn:W;
    [|discriminate].
  apply write_text_Return in W as [-> Hp].
  unfold print, ret; simpl. intros [= <- <-]; simpl.
  exists t. repeat split; auto.
Qed.

(** A page that raises: the rendering call raised, or it returned and the
    write raised, leaving the file system of the rendering call or the
    file of the page cut short. *)
Lemma convert_page_Raise acc i w e w' :
  page acc i w = (Raise e, w') ->
  stdout w' = stdout w
  /\ calls w' = calls w ++ [call_of i]
  /\ faults w' = faults w
  /\ ((text_of i w = Raise e /\ w' = world_after i w)
      \/ exists t,
           text_of i w = Return t
           /\ write_text (path_of i) t (world_after i w) = (Raise e, w')
           /\ (fs w' = fs (world_after i w)
               \/ exists k,
                    fs w'
                    = <[path_of i := File (Str.upto k t)]>
                        (fs (world_after i w)))).
Proof.
  unfold convert_page, bind. rewrite call_to_markdown_eq.
  destruct (text_of i w) as [t|e0] eqn:R.
  - fold (page_path output_dir base_name i).
    destruct (write_text (path_of i) t (world_after i w)) as [[u|e1] w1] eqn:W.
    + unfold print, ret; simpl. discriminate.
    + intros [= <- <-].
      pose proof (write_text_Raise _ _ _ _ _ W) as [->|[k ->]]; simpl;
        (split; [reflexivity|]); (split; [reflexivity|]);
        (split; [reflexivity|]); right; exists t;
        (split; [reflexivity|]); (split; [exact W|]).
      * now left.
      * right. now exists k.
  - intros [= <- <-]. simpl. repeat split. now left.
Qed.


(** A page whose rendering and writing go through. *)
Lemma convert_page_ok acc i w t :
  text_of i w = Return t ->
  node_at (fs (world_after i w)) (path_of i) <> Some Dir ->
  node_at (fs (world_after i w)) (pathlib.parent (path_of i)) = Some Dir ->
  faults w (path_of i) t = None ->
  exists w', page acc i w = (Return (acc ++ [pathlib.str (path_of i)]), w').
Proof.
  intros R Hp Hd Hf. unfold convert_page, bind.
  rewrite call_to_markdown_eq, R.
  fold (page_path output_dir base_name i).
  rewrite (write_text_ok _ _ _ Hp Hd Hf). unfold print, ret. eauto.
Qed.

Lemma convert_page_faults acc i w r w' :
  page acc i w = (r, w') -> faults w' = faults w.
Proof.
  destruct r as [acc'|e]; intros P.
  - revert P. unfold convert_page, bind. rewrite call_to_markdown_eq.
    destruct (text_of i w) as [t|e0]; [|discriminate].
    destruct (write_text _ t (world_after i w)) as [[u|e1] w1] eqn:W;
      [|discriminate].
    apply write_text_faults in W. unfold print, ret. now intros [= _ <-].
  - now apply convert_page_Raise in P as (_ & _ & F & _).
Qed.

Lemma for_pages_faults pages acc w r w' :
  loop pages acc w = (r, w') -> faults w' = faults w.
Proof.
  revert acc w. induction pages as [|i pages IH]; intros acc w.
  - now intros [= _ <-].
  - simpl. unfold bind.
    destruct (convert_page _ _ _ _ _ _ _ _ w) as [[acc'|e] w1] eqn:P;
      apply convert_page_faults in P.
    + intros H. apply IH in H. congruence.
    + now intros [= _ <-].
Qed.

Lemma for_pages_app l1 l2 acc w :
  loop (l1 ++ l2) acc w =
  match loop l1 acc w with
  | (Return acc', w') => loop l2 acc' w'
  | (Raise e, w') => (Raise e, w')
  end.
Proof.
  revert acc w. induction l1 as [|i l1 IH]; intros acc w; [reflexivity|].
  simpl. unfold bind.
  destruct (convert_page _ _ _ _ _ _ _ _ w) as [[acc'|e] w1];
    [apply IH | reflexivity].
Qed.

Lemma for_pages_cons i l acc w :
  loop (i :: l) acc w =
  match page acc i w with
  | (Return acc', w') => loop l acc' w'
  | (Raise e, w') => (Raise e, w')
  end.
Proof. reflexivity. Qed.

(** A run of the loop that returns. *)
Lemma for_pages_Return pages acc w l w' :
  loop pages acc w = (Return l, w') ->
  l = acc ++ map (fun i => pathlib.str (path_of i)) pages
  /\ stdout w' = stdout w ++ map line_of pages
  /\ calls w' = calls w ++ map call_of pages.
Proof.
  revert acc w. induction pages as [|i pages IH]; intros acc w.
  - intros [= <- <-]. simpl. now rewrite !app_nil_r.
  - rewrite for_pages_cons.
    destruct (page acc i w) as [[acc'|e] w1] eqn:P; [|discriminate].
    apply convert_page_Return in P as (t & _ & -> & _ & So & Ca & _).
    intros H. apply IH in H as (-> & So' & Ca').
    rewrite So', Ca', So, Ca. simpl. now rewrite <- !app_assoc.
Qed.

(** A run of the loop that raises: the pages before the failing one were
    converted, the exception and the world are those of the failing page. *)
Lemma for_pages_Raise pages acc w e w' :
  loop pages acc w = (Raise e, w') ->
  exists done i rest acc_i w_i,
    pages = done ++ i :: rest
    /\ loop done acc w = (Return acc_i, w_i)
    /\ page acc_i i w_i = (Raise e, w').
Proof.
  revert acc w. induction pages as [|i pages IH]; intros acc w.
  - discriminate.
  - rewrite for_pages_cons.
    destruct (page acc i w) as [[acc'|e0] w1] eqn:P.
    + intros H. apply IH in H as (done & j & rest & acc_j & w_j & -> & L & Pj).
      exists (i :: done), j, rest, acc_j, w_j. repeat split; auto.
      rewrite for_pages_cons, P. exact L.
    + intros [= <- <-]. exists [], i, pages, acc, w. repeat split; auto.
Qed.

(** The file system.  The rendering library is confined to the images
    directory, and the file names are those of a parsed source path. *)

Hypothesis B_confined : confined B.
Hypothesis images_dir_eq : images_dir = pathlib.joinpath output_dir "images".
Hypothesis output_dir_wf : wf_path output_dir.
Hypothesis base_ok : Str.contains "/" base_name = false.

Lemma rendered_frame i w q :
  ~ is_under images_dir q -> fs (world_after i w) !! q = fs w !! q.
Proof.
  intros H. unfold rendered; simpl. apply B_confined.
  rewrite PathFacts.Path_str; [exact H|].
  rewrite images_dir_eq. now apply PathFacts.wf_joinpath.
Qed.

Lemma rendered_node_at i w q :
  ~ is_under images_dir q -> node_at (fs (world_after i w)) q = node_at (fs w) q.
Proof.
  intros H. unfold node_at. destruct (parts q); [reflexivity|].
  now apply rendered_frame.
Qed.

Lemma path_of_not_under i : ~ is_under images_dir (path_of i).
Proof.
  rewrite images_dir_eq. now apply PathFacts.page_path_not_under_images.
Qed.

Lemma output_dir_not_under : ~ is_under images_dir output_dir.
Proof.
  rewrite images_dir_eq, PathFacts.images_eq.
  intros (_ & [k Hk] & _); simpl in Hk.
  apply (f_equal (@length _)) in Hk. rewrite !length_app in Hk.
  simpl in Hk. lia.
Qed.

(** One converted page changes its own file and files below the images
    directory, nothing else. *)
Lemma convert_page_frame acc i w r w' q :
  page acc i w = (r, w') ->
  ~ is_under images_dir q -> q <> path_of i ->
  fs w' !! q = fs w !! q.
Proof.
  intros P Hq Hne. destruct r as [acc'|e].
  - apply convert_page_Return in P as (t & _ & _ & -> & _).
    rewrite lookup_insert_ne by congruence. now apply rendered_frame.
  - apply convert_page_Raise in P
      as (_ & _ & _ & [[_ ->] | (t & _ & _ & [-> | [k ->]])]).
    + now apply rendered_frame.
    + now apply rendered_frame.
    + rewrite lookup_insert_ne by congruence. now apply rendered_frame.
Qed.

Lemma for_pages_frame pages acc w r w' q :
  loop pages acc w = (r, w') ->
  ~ is_under images_dir q -> (forall i, In i pages -> q <> path_of i) ->
  fs w' !! q = fs w !! q.
Proof.
  revert acc w. induction pages as [|i pages IH]; intros acc w.
  - intros [= _ <-]. reflexivity.
  - rewrite for_pages_cons. intros H Hq Hne.
    destruct (page acc i w) as [[acc'|e] w1] eqn:P.
    + rewrite (IH _ _ H Hq) by (intros j Hj; apply Hne; now right).
      eapply convert_page_frame; eauto. apply Hne. now left.
    + injection H as <- <-.
      eapply convert_page_frame; eauto. apply Hne. now left.
Qed.

Lemma for_pages_node_at pages acc w r w' q :
  loop pages acc w = (r, w') ->
  ~ is_under images_dir q -> (forall i, In i pages -> q <> path_of i) ->
  node_at (fs w') q = node_at (fs w) q.
Proof.
  intros L Hq Hne. unfold node_at. destruct (parts q); [reflexivity|].
  eapply for_pages_frame; eauto.
Qed.

(** After a run that returns, the file of each page holds the text the
    library returned for it. *)
Lemma for_pages_written pages acc w l w' i :
  loop pages acc w = (Return l, w') -> NoDup pages -> In i pages ->
  exists done rest acc_i w_i t,
    pages = done ++ i :: rest
    /\ loop done acc w = (Return acc_i, w_i)
    /\ text_of i w_i = Return t
    /\ fs w' !! path_of i = Some (File t).
Proof.
  intros L ND Hi. apply in_split in Hi as (done & rest & ->).
  rewrite for_pages_app in L.
  destruct (loop done acc w) as [[acc_i|e] w_i] eqn:L1; [|discriminate].
  rewrite for_pages_cons in L.
  destruct (page acc_i i w_i) as [[acc'|e] w1] eqn:P; [|discriminate].
  apply convert_page_Return in P as (t & R & _ & F & _).
  exists done, rest, acc_i, w_i, t. repeat split; auto.
  rewrite (for_pages_frame _ _ _ _ _ _ L (path_of_not_under i)).
  - rewrite F. apply lookup_insert_eq.
  - intros j Hj E. apply PathFacts.page_path_inj in E; [|exact base_ok].
    subst j. apply NoDup_app in ND as (_ & _ & ND).
    apply NoDup_cons in ND as [Hn _]. apply Hn. now apply list_elem_of_In.
Qed.

(** The loop returns when the library renders every page, the output
    directory is a directory and no page path is one. *)
Lemma for_pages_succeeds pages acc w :
  (forall f j, exists t,
     snd (to_markdown B f (pathlib.str pdf_path) j (pathlib.str images_dir))
     = Return t) ->
  node_at (fs w) output_dir = Some Dir ->
  (forall j, In j pages -> node_at (fs w) (path_of j) <> Some Dir) ->
  (forall j t, In j pages -> faults w (path_of j) t = None) ->
  exists l w', loop pages acc w = (Return l, w').
Proof.
  intros Hren. revert acc w.
  induction pages as [|i pages IH]; intros acc w Hod Hfree Hok.
  - simpl. unfold ret. eauto.
  - destruct (Hren (fs w) i) as [t R]. fold (text_of i w) in R.
    destruct (convert_page_ok acc i w t R) as [w1 P].
    { rewrite rendered_node_at by apply path_of_not_under.
      apply Hfree. now left. }
    { rewrite PathFacts.page_path_parent by exact base_ok.
      rewrite rendered_node_at by apply output_dir_not_under. exact Hod. }
    { apply Hok. now left. }
    rewrite for_pages_cons, P.
    pose proof (convert_page_faults _ _ _ _ _ P) as Hfa.
    apply convert_page_Return in P as (t' & _ & _ & F & _ & _ & Hp).
    apply IH; [| |intros j t0 Hj; rewrite Hfa; apply Hok; now right].
    + rewrite F, node_at_insert_ne.
      * rewrite rendered_node_at by apply output_dir_not_under. exact Hod.
      * rewrite PathFacts.page_path_eq by exact base_ok.
        intros E. apply (f_equal (fun p => length (parts p))) in E.
        simpl in E. rewrite length_app in E. simpl in E. lia.
    + intros j Hj. rewrite F.
      destruct (decide (path_of i = path_of j)) as [E|E].
      * rewrite <- E, node_at_insert_eq by exact Hp. discriminate.
      * rewrite node_at_insert_ne by exact E.
        rewrite rendered_node_at by apply path_of_not_under.
        apply Hfree. now right.
Qed.

End Loop.

End LoopFacts.

(** ** The function as a whole: lemmas *)

Module ConvertFacts.

Import FsFacts LoopFacts.

Lemma determine_output_dir_inv pdf_path out w r w1 :
  determine_output_dir pdf_path out w = (r, w1) ->
  stdout w1 = stdout w /\ calls w1 = calls w
  /\ adds_dirs (fs w) (fs w1)
  /\ forall od, r = Return od ->
       od = output_dir_of pdf_path out
       /\ forall d, out = Some d -> node_at (fs w1) od = Some Dir.
Proof.
  destruct out as [d|]; simpl.
  - unfold bind, ret.
    destruct (mkdir (pathlib.Path d) w) as [[[]|e] w2] eqn:E;
      intros [= <- <-];
      apply mkdir_like_mkdir in E as (So & Ca & Ad & Ok);
      repeat split; auto; try discriminate.
    + now injection H as <-.
    + injection H as <-. intros _ _. now apply Ok.
  - unfold ret. intros [= <- <-]. repeat split; auto using adds_dirs_refl.
    + now injection H as <-.
    + discriminate.
Qed.

Lemma prepare_eq B pdf_path out w :
  prepare B pdf_path out w =
  match determine_output_dir pdf_path out w with
  | (Raise e, w1) => (Raise e, w1)
  | (Return od, w1) =>
      match pymupdf_open B (fs w1) (pathlib.str pdf_path) with
      | Raise e => (Raise e, opened pdf_path w1)
      | Return n =>
          let imgs := pathlib.joinpath od "images" in
          match mkdir imgs (opened pdf_path w1) with
          | (Raise e, w2) => (Raise e, w2)
          | (Return _, w2) =>
              (Return (od, n, imgs),
               {| fs := fs w2;
                  stdout := stdout w2 ++ header pdf_path od imgs n;
                  calls := calls w2;
                  faults := faults w2 |})
          end
      end
  end.
Proof.
  unfold prepare, bind.
  destruct (determine_output_dir pdf_path out w) as [[od|e] w1];
    [|reflexivity].
  unfold call_open. fold (opened pdf_path w1).
  destruct (pymupdf_open B (fs w1) (pathlib.str pdf_path)) as [n|e];
    [|reflexivity].
  destruct (mkdir _ (opened pdf_path w1)) as [[u|e] w2]; [|reflexivity].
  unfold print, ret, header; simpl. now rewrite <- !app_assoc.
Qed.

Lemma prepare_Return B pdf_path out w od n imgs w0 :
  prepare B pdf_path out w = (Return (od, n, imgs), w0) ->
  exists w1,
    determine_output_dir pdf_path out w = (Return od, w1)
    /\ od = output_dir_of pdf_path out
    /\ imgs = pathlib.joinpath od "images"
    /\ pymupdf_open B (fs w1) (pathlib.str pdf_path) = Return n
    /\ adds_dirs (fs w) (fs w1)
    /\ adds_dirs (fs w1) (fs w0)
    /\ node_at (fs w0) imgs = Some Dir
    /\ (forall d, out = Some d -> node_at (fs w0) od = Some Dir)
    /\ stdout w0 = stdout w ++ header pdf_path od imgs n
    /\ calls w0 = calls w ++ [CallOpen (pathlib.str pdf_path)].
Proof.
  rewrite prepare_eq.
  destruct (determine_output_dir pdf_path out w) as [[od'|e] w1] eqn:D;
    [|discriminate].
  destruct (pymupdf_open B (fs w1) (pathlib.str pdf_path)) as [n'|e] eqn:O;
    [|discriminate].
  cbv zeta.
  destruct (mkdir _ (opened pdf_path w1)) as [[u|e] w2] eqn:K; [|discriminate].
  intros [= <- <- <- <-]. simpl.
  apply determine_output_dir_inv in D as HD.
  destruct HD as (So & Ca & Ad & Hod). destruct (Hod _ eq_refl) as [Eod Hdir].
  apply mkdir_like_mkdir in K as (So2 & Ca2 & Ad2 & Ok2). simpl in *.
  exists w1. split; [reflexivity|]. split; [exact Eod|].
  split; [reflexivity|]. split; [exact O|]. split; [exact Ad|].
  split; [exact Ad2|]. split; [now apply Ok2; destruct u|].
  split; [|split; congruence].
  intros d Hd. eapply adds_dirs_node_at; eauto.
Qed.

Lemma convert_valid_eq B pdf_path out w :
  convert_valid B pdf_path out w =
  match prepare B pdf_path out w with
  | (Raise e, w0) => (Raise e, w0)
  | (Return (od, n, imgs), w0) =>
      match for_pages B pdf_path od imgs (pathlib.stem pdf_path) n
              (seq 0 n) [] w0 with
      | (Raise e, w1) => (Raise e, w1)
      | (Return l, w1) => (Return l, finished n w1)
      end
  end.
Proof.
  unfold convert_valid, bind.
  destruct (prepare B pdf_path out w) as [[[[od n] imgs]|e] w0];
    [|reflexivity].
  destruct (for_pages _ _ _ _ _ _ _ _ w0) as [[l|e] w1]; reflexivity.
Qed.

Lemma convert_missing B s out w :
  node_at (fs w) (pathlib.Path s) = None ->
  convert_pdf_to_markdown B s out w =
  (Raise (FileNotFoundError
            ("PDF file not found: " +:+ pathlib.str (pathlib.Path s))), w).
Proof.
  intros H. unfold convert_pdf_to_markdown, bind, path_exists.
  rewrite bool_decide_eq_false_2; [reflexivity|].
  rewrite H. now intros [x Hx].
Qed.

Lemma convert_not_pdf B s out w :
  is_Some (node_at (fs w) (pathlib.Path s)) ->
  Str.lower (pathlib.suffix (pathlib.Path s)) <> ".pdf" ->
  convert_pdf_to_markdown B s out w =
  (Raise (ValueError
            ("File does not appear to be a PDF: "
             +:+ pathlib.str (pathlib.Path s))), w).
Proof.
  intros H Hs. unfold convert_pdf_to_markdown, bind, path_exists.
  rewrite bool_decide_eq_true_2 by exact H. simpl.
  apply String.eqb_neq in Hs. now rewrite Hs.
Qed.

Lemma convert_validated B s out w :
  is_Some (node_at (fs w) (pathlib.Path s)) ->
  Str.lower (pathlib.suffix (pathlib.Path s)) = ".pdf" ->
  convert_pdf_to_markdown B s out w = convert_valid B (pathlib.Path s) out w.
Proof.
  intros H Hs. unfold convert_pdf_to_markdown, bind, path_exists.
  rewrite bool_decide_eq_true_2 by exact H. simpl.
  apply String.eqb_eq in Hs. now rewrite Hs.
Qed.

Lemma for_pages_calls B pdf_path od imgs base n pages acc w r w' :
  for_pages B pdf_path od imgs base n pages acc w = (r, w') ->
  exists rest, calls w' = calls w ++ rest.
Proof.
  destruct r as [l|e]; intros H.
  - apply for_pages_Return in H as (_ & _ & ->). eauto.
  - apply for_pages_Raise in H as (done & i & rest & acc_i & w_i & _ & L & P).
    apply for_pages_Return in L as (_ & _ & Ca).
    apply convert_page_Raise in P as (_ & -> & _). rewrite Ca.
    rewrite <- app_assoc. eauto.
Qed.

(** Once the output directory is settled, the library is asked to open the
    document, and what it raises is what the function raises. *)
Lemma convert_valid_opens B pdf_path out w od w1 :
  determine_output_dir pdf_path out w = (Return od, w1) ->
  (exists rest,
     calls (snd (convert_valid B pdf_path out w))
     = calls w ++ CallOpen (pathlib.str pdf_path) :: rest)
  /\ forall e,
       pymupdf_open B (fs w1) (pathlib.str pdf_path) = Raise e ->
       convert_valid B pdf_path out w = (Raise e, opened pdf_path w1).
Proof.
  intros D. rewrite convert_valid_eq, prepare_eq, D.
  apply determine_output_dir_inv in D as (_ & Ca & _).
  destruct (pymupdf_open B (fs w1) (pathlib.str pdf_path)) as [n|e0].
  - split; [|discriminate]. cbv zeta.
    destruct (mkdir _ (opened pdf_path w1)) as [[u|e] w2] eqn:K;
      apply mkdir_like_mkdir in K as (_ & Ca2 & _); simpl in Ca2.
    + destruct (for_pages _ _ _ _ _ _ _ _ _) as [[l|e] w3] eqn:L;
        apply for_pages_calls in L as [rest L]; simpl in *;
        exists rest; rewrite L, Ca2, Ca; now rewrite <- app_assoc.
    + exists []. simpl. now rewrite Ca2, Ca.
  - split; [|now intros e [= <-]].
    exists []. simpl. now rewrite Ca.
Qed.

Lemma convert_prepared B s out w od n imgs w0 :
  is_Some (node_at (fs w) (pathlib.Path s)) ->
  Str.lower (pathlib.suffix (pathlib.Path s)) = ".pdf" ->
  prepare B (pathlib.Path s) out w = (Return (od, n, imgs), w0) ->
  convert_pdf_to_markdown B s out w =
  match for_pages B (pathlib.Path s) od imgs (pathlib.stem (pathlib.Path s))
          n (seq 0 n) [] w0 with
  | (Raise e, w1) => (Raise e, w1)
  | (Return l, w1) => (Return l, finished n w1)
  end.
Proof.
  intros Hex Hs P. rewrite (convert_validated _ _ _ _ Hex Hs).
  now rewrite convert_valid_eq, P.
Qed.

(** A call that returns went through both checks, the preparation and the
    whole loop. *)
Lemma convert_Return B s out w l w' :
  convert_pdf_to_markdown B s out w = (Return l, w') ->
  is_Some (node_at (fs w) (pathlib.Path s))
  /\ Str.lower (pathlib.suffix (pathlib.Path s)) = ".pdf"
  /\ exists od n imgs w0 w1,
       prepare B (pathlib.Path s) out w = (Return (od, n, imgs), w0)
       /\ for_pages B (pathlib.Path s) od imgs
            (pathlib.stem (pathlib.Path s)) n (seq 0 n) [] w0
          = (Return l, w1)
       /\ w' = finished n w1.
Proof.
  intros H.
  destruct (decide (is_Some (node_at (fs w) (pathlib.Path s)))) as [Hex|Hex].
  2:{ assert (N : node_at (fs w) (pathlib.Path s) = None).
      { destruct (node_at (fs w) (pathlib.Path s)); [|reflexivity].
        exfalso. apply Hex. eauto. }
      rewrite (convert_missing _ _ _ _ N) in H. discriminate. }
  destruct (decide (Str.lower (pathlib.suffix (pathlib.Path s)) = ".pdf"))
    as [Hs|Hs].
  2:{ rewrite (convert_not_pdf _ _ _ _ Hex Hs) in H. discriminate. }
  split; [exact Hex|]. split; [exact Hs|].
  rewrite (convert_validated _ _ _ _ Hex Hs), convert_valid_eq in H.
  destruct (prepare B (pathlib.Path s) out w) as [[[[od n] imgs]|e] w0];
    [|discriminate].
  destruct (for_pages _ _ _ _ _ _ _ _ w0) as [[l0|e] w1] eqn:L;
    [|discriminate].
  injection H as <- <-. exists od, n, imgs, w0, w1. auto.
Qed.

Lemma seq_split_inv a n (l1 : list nat) x l2 :
  seq a n = l1 ++ x :: l2 ->
  l1 = seq a (length l1) /\ x = a + length l1 /\ length l1 < n.
Proof.
  revert a n. induction l1 as [|y l1 IH]; intros a [|n] H; simpl in *;
    try discriminate.
  - injection H as <- _. repeat split; lia.
  - injection H as <- H. apply IH in H as (E1 & -> & Hlt).
    rewrite <- E1. repeat split; lia.
Qed.

(** The returned list: one path per page, in page order. *)
Lemma returned_paths B s out w l w' :
  convert_pdf_to_markdown B s out w = (Return l, w') ->
  exists n w1,
    determine_output_dir (pathlib.Path s) out w
    = (Return (output_dir_of (pathlib.Path s) out), w1)
    /\ pymupdf_open B (fs w1) (pathlib.str (pathlib.Path s)) = Return n
    /\ (forall od m imgs w0,
          prepare B (pathlib.Path s) out w = (Return (od, m, imgs), w0) ->
          m = n)
    /\ l = map (fun i => pathlib.str
                  (page_path (output_dir_of (pathlib.Path s) out)
                     (pathlib.stem (pathlib.Path s)) i))
             (seq 0 n).
Proof.
  intros H.
  apply convert_Return in H
    as (_ & _ & od & n & imgs & w0 & w1 & P & L & _).
  pose proof (prepare_Return _ _ _ _ _ _ _ _ P)
    as (w2 & D & -> & _ & O & _).
  apply for_pages_Return in L as (-> & _).
  exists n, w2. split; [exact D|]. split; [exact O|].
  split; [|reflexivity].
  intros od m imgs' w0' P'. rewrite P in P'. now injection P'.
Qed.

Lemma no_file_above_images f od :
  no_file_above f (pathlib.joinpath od "images") -> no_file_above f od.
Proof.
  rewrite PathFacts.images_eq. intros H q t Hr Hp. apply H; simpl; [exact Hr|].
  now apply prefix_app_r.
Qed.

Lemma no_file_above_adds_dirs f f' p :
  adds_dirs f f' -> no_file_above f p -> no_file_above f' p.
Proof.
  intros Ad H q t Hr Hp N. apply (H q t Hr Hp).
  eapply adds_dirs_node_at_file; eauto.
Qed.

(** The preparation goes through when no regular file is in the way of the
    images directory and the library can open the document. *)
Lemma prepare_succeeds B pdf_path out w n :
  no_file_above (fs w)
    (pathlib.joinpath (output_dir_of pdf_path out) "images") ->
  (forall f, adds_dirs (fs w) f ->
     pymupdf_open B f (pathlib.str pdf_path) = Return n) ->
  exists w0,
    prepare B pdf_path out w
    = (Return (output_dir_of pdf_path out, n,
               pathlib.joinpath (output_dir_of pdf_path out) "images"), w0).
Proof.
  intros Hfree Hopen. rewrite prepare_eq.
  assert (D : exists w1,
             determine_output_dir pdf_path out w
             = (Return (output_dir_of pdf_path out), w1)).
  { destruct out as [d|]; simpl; [|unfold ret; eauto].
    destruct (mkdir_succeeds (pathlib.Path d) w) as [w1 E].
    { now apply no_file_above_images. }
    unfold bind, ret. rewrite E. eauto. }
  destruct D as [w1 D]. rewrite D.
  apply determine_output_dir_inv in D as (_ & _ & Ad & _).
  rewrite (Hopen _ Ad). cbv zeta.
  destruct (mkdir_succeeds
              (pathlib.joinpath (output_dir_of pdf_path out) "images")
              (opened pdf_path w1)) as [w2 E].
  { simpl. eapply no_file_above_adds_dirs; eauto. }
  rewrite E. eauto.
Qed.

(** A conversion into an existing directory: it returns, leaves a file
    system on which it can be run again, and changes nothing outside the
    images directory and the page files. *)
Lemma convert_succeeds B s d w n :
  confined B ->
  Str.lower (pathlib.suffix (pathlib.Path s)) = ".pdf" ->
  ~ is_under (pathlib.joinpath (pathlib.Path d) "images") (pathlib.Path s) ->
  (forall f, pymupdf_open B f (pathlib.str (pathlib.Path s)) = Return n) ->
  (forall f j, exists t,
     snd (to_markdown B f (pathlib.str (pathlib.Path s)) j
            (pathlib.str (pathlib.joinpath (pathlib.Path d) "images")))
     = Return t) ->
  ready (pathlib.Path s) (pathlib.Path d) (pathlib.stem (pathlib.Path s)) n
    (fs w) ->
  (forall j t, j < n ->
     faults w (page_path (pathlib.Path d) (pathlib.stem (pathlib.Path s)) j) t
     = None) ->
  exists w',
    convert_pdf_to_markdown B s (Some d) w
    = (Return (map (fun i => pathlib.str
                      (page_path (pathlib.Path d)
                         (pathlib.stem (pathlib.Path s)) i)) (seq 0 n)), w')
    /\ faults w' = faults w
    /\ ready (pathlib.Path s) (pathlib.Path d)
         (pathlib.stem (pathlib.Path s)) n (fs w')
    /\ node_at (fs w') (pathlib.joinpath (pathlib.Path d) "images")
       = Some Dir
    /\ forall q,
         ~ is_under (pathlib.joinpath (pathlib.Path d) "images") q ->
         q <> pathlib.joinpath (pathlib.Path d) "images" ->
         (forall j, j < n ->
            q <> page_path (pathlib.Path d)
                   (pathlib.stem (pathlib.Path s)) j) ->
         fs w' !! q = fs w !! q.
Proof.
  intros HB Hs Hsrc Hopen Hren (Hex & Hod & Himg & Hpages) Hok.
  set (pdf := pathlib.Path s) in *. set (od := pathlib.Path d) in *.
  set (base := pathlib.stem pdf) in *.
  set (imgs := pathlib.joinpath od "images") in *.
  assert (Hb : Str.contains "/" base = false)
    by apply PathFacts.stem_no_slash, PathFacts.wf_Path.
  assert (Hwf : wf_path od) by apply PathFacts.wf_Path.
  (* the preparation *)
  assert (D : determine_output_dir pdf (Some d) w = (Return od, w)).
  { simpl. unfold bind, ret. fold od. now rewrite (mkdir_existing _ _ Hod). }
  assert (K : exists w2,
             mkdir imgs (opened pdf w) = (Return tt, w2)
             /\ stdout w2 = stdout w
             /\ calls w2 = calls w ++ [CallOpen (pathlib.str pdf)]
             /\ node_at (fs w2) imgs = Some Dir
             /\ faults w2 = faults w
             /\ forall q, q <> imgs -> fs w2 !! q = fs w !! q).
  { destruct (node_at (fs w) imgs) as [[t|]|] eqn:N.
    - now destruct (Himg t).
    - exists (opened pdf w). rewrite mkdir_existing by exact N.
      repeat split; auto.
    - exists (set_fs (<[imgs := Dir]> (fs w)) (opened pdf w)).
      rewrite mkdir_fresh; simpl; auto.
      + repeat split; auto using node_at_insert_dir.
        intros q Hq. now apply lookup_insert_ne.
      + unfold imgs. rewrite PathFacts.parent_joinpath by reflexivity.
        exact Hod. }
  destruct K as (w2 & K & So2 & Ca2 & Hi2 & Fa2 & F2).
  set (w0 := {| fs := fs w2;
                stdout := stdout w2 ++ header pdf od imgs n;
                calls := calls w2;
                faults := faults w2 |}).
  assert (P : prepare B pdf (Some d) w = (Return (od, n, imgs), w0)).
  { rewrite prepare_eq, D, Hopen. cbv zeta. fold imgs. now rewrite K. }
  assert (Hnot_under : forall j, ~ is_under imgs (page_path od base j))
    by (intros j; now apply PathFacts.page_path_not_under_images).
  assert (Hnot_imgs : forall j, page_path od base j <> imgs)
    by (intros j; now apply PathFacts.page_path_not_images).
  assert (Hod_ne : od <> imgs).
  { unfold imgs. rewrite PathFacts.images_eq. intros E.
    apply (f_equal (fun p => length (parts p))) in E. simpl in E.
    rewrite length_app in E. simpl in E. lia. }
  assert (Hnode2 : forall q, q <> imgs -> node_at (fs w2) q = node_at (fs w) q).
  { intros q Hq. unfold node_at. destruct (parts q); [reflexivity|].
    now apply F2. }
  (* the loop *)
  destruct (for_pages_succeeds B pdf od imgs base n HB eq_refl Hwf Hb
              (seq 0 n) [] w0 Hren) as (l & w1 & L).
  { simpl. rewrite Hnode2 by exact Hod_ne. exact Hod. }
  { intros j Hj. simpl. rewrite Hnode2 by apply Hnot_imgs.
    apply Hpages. apply in_seq in Hj. lia. }
  { intros j t Hj. simpl. rewrite Fa2. apply Hok. apply in_seq in Hj. lia. }
  pose proof (for_pages_Return _ _ _ _ _ _ _ _ _ _ _ L) as (El & _).
  simpl in El. subst l.
  exists (finished n w1). split.
  { rewrite (convert_prepared _ _ _ _ _ _ _ _ Hex Hs P). fold pdf base.
    now rewrite L. }
  split.
  { simpl. rewrite (for_pages_faults _ _ _ _ _ _ _ _ _ _ _ L). exact Fa2. }
  assert (Fr : forall q, ~ is_under imgs q ->
            (forall j, j < n -> q <> page_path od base j) ->
            fs w1 !! q = fs w2 !! q).
  { intros q Hq Hne.
    apply (for_pages_frame B pdf od imgs base n HB eq_refl Hwf
             _ _ _ _ _ q L Hq).
    intros j Hj. apply Hne. apply in_seq in Hj. lia. }
  assert (Frn : forall q, ~ is_under imgs q ->
            (forall j, j < n -> q <> page_path od base j) ->
            node_at (fs w1) q = node_at (fs w2) q).
  { intros q Hq Hne. unfold node_at. destruct (parts q); [reflexivity|].
    now apply Fr. }
  assert (Hw : forall j, j < n ->
            exists t, fs w1 !! page_path od base j = Some (File t)).
  { intros j Hj.
    destruct (for_pages_written B pdf od imgs base n HB eq_refl Hwf Hb
                (seq 0 n) [] w0 _ w1 j L (NoDup_seq 0 n))
      as (_ & _ & _ & _ & t & _ & _ & _ & F).
    { apply in_seq. lia. }
    eauto. }
  assert (Himgs_not_under : ~ is_under imgs imgs)
    by (intros (_ & _ & Hne); now apply Hne).
  assert (Hi1 : node_at (fs w1) imgs = Some Dir).
  { rewrite Frn; [exact Hi2 | exact Himgs_not_under |].
    intros j _ E. now apply (Hnot_imgs j). }
  split; [|split; [exact Hi1|]].
  - (* the file system is ready for another run *)
    simpl. repeat split.
    + destruct (decide (Exists (fun j => pdf = page_path od base j)
                          (seq 0 n))) as [Hin|Hout].
      * apply Exists_exists in Hin as (j & Hj & E).
        destruct (Hw j) as [t F]; [apply list_elem_of_In, in_seq in Hj; lia|].
        rewrite E, node_at_lookup, F by now apply PathFacts.page_path_parts.
        eauto.
      * rewrite Frn; [|exact Hsrc|].
        -- destruct (decide (pdf = imgs)) as [E|E].
           ++ rewrite E, Hi2. eauto.
           ++ rewrite Hnode2 by exact E. exact Hex.
        -- intros j Hj E. apply Hout. apply Exists_exists.
           exists j. split; [|exact E]. apply list_elem_of_In, in_seq. lia.
    + rewrite Frn, Hnode2; [exact Hod | exact Hod_ne | |].
      * apply (output_dir_not_under od imgs eq_refl).
      * intros j _ E. rewrite PathFacts.page_path_eq in E by exact Hb.
        apply (f_equal (fun p => length (parts p))) in E. simpl in E.
        rewrite length_app in E. simpl in E. lia.
    + intros t. fold imgs. rewrite Hi1. discriminate.
    + intros j Hj. destruct (Hw j Hj) as [t F].
      rewrite node_at_lookup, F by now apply PathFacts.page_path_parts.
      discriminate.
  - intros q Hq Hqi Hne. simpl. rewrite Fr by assumption. now apply F2.
Qed.

End ConvertFacts.

(** ** Sanity checks of the model on concrete inputs *)

Example Path_simple : pathlib.Path "docs/Report.PDF"
  = {| root := Relative; parts := ["docs"; "Report.PDF"] |}.
Proof. reflexivity. Qed.

Example Path_normalises : pathlib.str (pathlib.Path "///a//./b/") = "/a/b".
Proof. reflexivity. Qed.

Example Path_two_slashes : pathlib.str (pathlib.Path "//a") = "//a".
Proof. reflexivity. Qed.

Example Path_empty : pathlib.str (pathlib.Path "") = ".".
Proof. reflexivity. Qed.

Example suffix_mixed_case :
  Str.lower (pathlib.suffix (pathlib.Path "Report.PDF")) = ".pdf".
Proof. reflexivity. Qed.

Example suffix_dotfile : pathlib.suffix (pathlib.Path ".pdf") = "".
Proof. reflexivity. Qed.

Example suffix_trailing_dot : pathlib.suffix (pathlib.Path "a.") = "".
Proof. reflexivity. Qed.

Example stem_two_dots : pathlib.stem (pathlib.Path "a.tar.pdf") = "a.tar".
Proof. reflexivity. Qed.

Example format_03d_7 : Str.format_03d 7 = "007".
Proof. reflexivity. Qed.

Example format_03d_1000 : Str.format_03d 1000 = "1000".
Proof. reflexivity. Qed.

(** The scenario of the specification: three pages into [out/]. *)
Example sample_3pages_paths :
  fst (convert_pdf_to_markdown (stub_backend 3) "sample_3pages.pdf"
         (Some "out/") (world_of [("sample_3pages.pdf", File "%PDF")]))
  = Return ["out/sample_3pages_page_001.md";
            "out/sample_3pages_page_002.md";
            "out/sample_3pages_page_003.md"].
Proof. vm_compute. reflexivity. Qed.

Example sample_3pages_stdout :
  stdout (snd (convert_pdf_to_markdown (stub_backend 3) "sample_3pages.pdf"
                 (Some "out/") (world_of [("sample_3pages.pdf", File "%PDF")])))
  = ["Converting: sample_3pages.pdf";
     "Total pages: 3";
     "Output directory: out";
     "Images directory: out/images";
     "  Page 1/3 -> sample_3pages_page_001.md";
     "  Page 2/3 -> sample_3pages_page_002.md";
     "  Page 3/3 -> sample_3pages_page_003.md";
     "Successfully converted 3 pages."].
Proof. vm_compute. reflexivity. Qed.

Example sample_3pages_files :
  let w' := snd (convert_pdf_to_markdown (stub_backend 3) "sample_3pages.pdf"
                   (Some "out/")
                   (world_of [("sample_3pages.pdf", File "%PDF")])) in
  fs w' !! pathlib.Path "out/sample_3pages_page_002.md"
    = Some (File "text of page 1")
  /\ fs w' !! pathlib.Path "out/images" = Some Dir
  /\ fs w' !! pathlib.Path "out/images/img_001.png" = Some (File "PNG").
Proof. vm_compute. auto. Qed.

(** ** Properties of the specification *)

Import FsFacts LoopFacts ConvertFacts.

Lemma pair_eta_fst {A C} (x : A * C) (a : A) : fst x = a -> x = (a, snd x).
Proof. destruct x; simpl. now intros ->. Qed.

Lemma image_name_valid page : valid_part (image_name page) = true.
Proof.
  apply PathFacts.valid_part_intro.
  - discriminate.
  - discriminate.
  - unfold image_name.
    rewrite !StrFacts.contains_app, StrFacts.format_03d_no_slash.
    reflexivity.
Qed.

Lemma stub_backend_confined n : confined (stub_backend n).
Proof.
  intros f doc page dir q Hq. simpl. apply lookup_insert_ne.
  intros <-. apply Hq.
  rewrite (PathFacts.joinpath_single _ _ (image_name_valid page)).
  repeat split; simpl.
  - now exists [image_name page].
  - intros E. apply (f_equal (@length _)) in E.
    rewrite length_app in E. simpl in E. lia.
Qed.

Lemma failing_backend_confined n k : confined (failing_backend n k).
Proof.
  intros f doc page dir q Hq. simpl.
  destruct (Nat.eqb page k); [reflexivity|].
  exact (stub_backend_confined n f doc page dir q Hq).
Qed.

(** C2. Validation comes first and in a fixed order, and a failed check
    leaves the world as it was.  A source path that does not exist raises
    [FileNotFoundError] (whatever its extension) with the path in the
    message; one that exists with an extension that does not lowercase to
    [.pdf] raises [ValueError] with the path in the message.  In both cases
    the final world is the initial one: no directory was created, no file
    written, nothing printed and no library called. *)
Theorem validation_short_circuits B s out w :
  (node_at (fs w) (pathlib.Path s) = None ->
   convert_pdf_to_markdown B s out w =
   (Raise (FileNotFoundError
             ("PDF file not found: " +:+ pathlib.str (pathlib.Path s))), w))
  /\ (is_Some (node_at (fs w) (pathlib.Path s)) ->
      Str.lower (pathlib.suffix (pathlib.Path s)) <> ".pdf" ->
      convert_pdf_to_markdown B s out w =
      (Raise (ValueError
                ("File does not appear to be a PDF: "
                 +:+ pathlib.str (pathlib.Path s))), w)).
Proof.
  split; [apply convert_missing | apply convert_not_pdf].
Qed.

Lemma validation_short_circuits_witness :
  let w := world_of [("notes.txt", File "plain text")] in
  (node_at (fs w) (pathlib.Path "missing.txt") = None
   /\ convert_pdf_to_markdown (stub_backend 2) "missing.txt" (Some "out") w
      = (Raise (FileNotFoundError "PDF file not found: missing.txt"), w))
  /\ (is_Some (node_at (fs w) (pathlib.Path "notes.txt"))
      /\ Str.lower (pathlib.suffix (pathlib.Path "notes.txt")) <> ".pdf"
      /\ convert_pdf_to_markdown (stub_backend 2) "notes.txt" (Some "out") w
         = (Raise (ValueError "File does not appear to be a PDF: notes.txt"),
            w)).
Proof.
  intros w.
  assert (H1 : node_at (fs w) (pathlib.Path "missing.txt") = None)
    by reflexivity.
  assert (H2 : is_Some (node_at (fs w) (pathlib.Path "notes.txt")))
    by (eexists; reflexivity).
  assert (H3 : Str.lower (pathlib.suffix (pathlib.Path "notes.txt")) <> ".pdf")
    by (vm_compute; discriminate).
  split; [split; [exact H1|] | split; [exact H2 | split; [exact H3|]]].
  - exact (proj1 (validation_short_circuits (stub_backend 2) "missing.txt"
                    (Some "out") w) H1).
  - exact (proj2 (validation_short_circuits (stub_backend 2) "notes.txt"
                    (Some "out") w) H2 H3).
Defined.

(** C3. The extension check is case-insensitive and looks at the name only.
    For a source path that exists: when its extension lowercases to [.pdf]
    the function goes on with the conversion proper (and, once the output
    directory is settled, asks the library to open the document); when it
    does not, the function raises [ValueError] and leaves the world as it
    was.  Nothing depends on what is stored at the path. *)
Theorem extension_check_case_insensitive B s out w :
  is_Some (node_at (fs w) (pathlib.Path s)) ->
  (Str.lower (pathlib.suffix (pathlib.Path s)) = ".pdf" ->
   convert_pdf_to_markdown B s out w = convert_valid B (pathlib.Path s) out w
   /\ forall od w1,
        determine_output_dir (pathlib.Path s) out w = (Return od, w1) ->
        exists rest,
          calls (snd (convert_pdf_to_markdown B s out w))
          = calls w ++ CallOpen (pathlib.str (pathlib.Path s)) :: rest)
  /\ (Str.lower (pathlib.suffix (pathlib.Path s)) <> ".pdf" ->
      convert_pdf_to_markdown B s out w =
      (Raise (ValueError
                ("File does not appear to be a PDF: "
                 +:+ pathlib.str (pathlib.Path s))), w)).
Proof.
  intros Hex. split.
  - intros Hs. rewrite (convert_validated _ _ _ _ Hex Hs).
    split; [reflexivity|]. intros od w1 D.
    exact (proj1 (convert_valid_opens B _ _ _ _ _ D)).
  - now apply convert_not_pdf.
Qed.

Lemma extension_check_case_insensitive_witness :
  let w := world_of [("Report.PDF", File "no pdf inside");
                     ("report.txt", File "%PDF-1.7")] in
  (is_Some (node_at (fs w) (pathlib.Path "Report.PDF"))
   /\ Str.lower (pathlib.suffix (pathlib.Path "Report.PDF")) = ".pdf"
   /\ convert_pdf_to_markdown (stub_backend 1) "Report.PDF" None w
      = convert_valid (stub_backend 1) (pathlib.Path "Report.PDF") None w
   /\ fst (convert_pdf_to_markdown (stub_backend 1) "Report.PDF" None w)
      = Return ["Report_page_001.md"])
  /\ (is_Some (node_at (fs w) (pathlib.Path "report.txt"))
      /\ Str.lower (pathlib.suffix (pathlib.Path "report.txt")) <> ".pdf"
      /\ convert_pdf_to_markdown (stub_backend 1) "report.txt" None w
         = (Raise (ValueError "File does not appear to be a PDF: report.txt"),
            w)).
Proof.
  intros w.
  assert (H1 : is_Some (node_at (fs w) (pathlib.Path "Report.PDF")))
    by (eexists; reflexivity).
  assert (H2 : Str.lower (pathlib.suffix (pathlib.Path "Report.PDF")) = ".pdf")
    by reflexivity.
  assert (H3 : is_Some (node_at (fs w) (pathlib.Path "report.txt")))
    by (eexists; reflexivity).
  assert (H4 : Str.lower (pathlib.suffix (pathlib.Path "report.txt")) <> ".pdf")
    by (vm_compute; discriminate).
  split; [split; [exact H1 | split; [exact H2 | split]]
         | split; [exact H3 | split; [exact H4|]]].
  - exact (proj1 (proj1 (extension_check_case_insensitive (stub_backend 1)
                           "Report.PDF" None w H1) H2)).
  - vm_compute. reflexivity.
  - exact (proj2 (extension_check_case_insensitive (stub_backend 1)
                    "report.txt" None w H3) H4).
Defined.

(** C10. A source whose whole name is [.pdf] has an empty extension: when
    it exists the function raises [ValueError] and leaves the world as it
    was. *)
Theorem dotfile_pdf_is_rejected B s out w :
  pathlib.name (pathlib.Path s) = ".pdf" ->
  is_Some (node_at (fs w) (pathlib.Path s)) ->
  pathlib.suffix (pathlib.Path s) = ""
  /\ convert_pdf_to_markdown B s out w =
     (Raise (ValueError
               ("File does not appear to be a PDF: "
                +:+ pathlib.str (pathlib.Path s))), w).
Proof.
  intros Hn Hex.
  assert (Hs : pathlib.suffix (pathlib.Path s) = "").
  { unfold pathlib.suffix. rewrite Hn. reflexivity. }
  split; [exact Hs|]. apply convert_not_pdf; [exact Hex|].
  rewrite Hs. discriminate.
Qed.

Lemma dotfile_pdf_is_rejected_witness :
  let w := world_of [("docs/.pdf", File "%PDF-1.7")] in
  pathlib.name (pathlib.Path "docs/.pdf") = ".pdf"
  /\ is_Some (node_at (fs w) (pathlib.Path "docs/.pdf"))
  /\ pathlib.suffix (pathlib.Path "docs/.pdf") = ""
  /\ convert_pdf_to_markdown (stub_backend 1) "docs/.pdf" (Some "out") w
     = (Raise (ValueError "File does not appear to be a PDF: docs/.pdf"), w).
Proof.
  intros w.
  assert (H1 : pathlib.name (pathlib.Path "docs/.pdf") = ".pdf")
    by reflexivity.
  assert (H2 : is_Some (node_at (fs w) (pathlib.Path "docs/.pdf")))
    by (eexists; reflexivity).
  split; [exact H1 | split; [exact H2|]].
  exact (dotfile_pdf_is_rejected (stub_backend 1) "docs/.pdf" (Some "out")
           w H1 H2).
Defined.

(** C6, as the code has it.  The function checks that the source path
    exists and that its extension lowercases to [.pdf]; it does not check
    that the path is a regular file.  A directory with such a name passes
    both checks: the function settles the output directory and then asks
    the library to open the document, and an exception of the library is
    raised unchanged. *)
Theorem existing_directory_passes_validation B s out w :
  node_at (fs w) (pathlib.Path s) = Some Dir ->
  Str.lower (pathlib.suffix (pathlib.Path s)) = ".pdf" ->
  convert_pdf_to_markdown B s out w = convert_valid B (pathlib.Path s) out w
  /\ forall od w1,
       determine_output_dir (pathlib.Path s) out w = (Return od, w1) ->
       (exists rest,
          calls (snd (convert_pdf_to_markdown B s out w))
          = calls w ++ CallOpen (pathlib.str (pathlib.Path s)) :: rest)
       /\ forall e,
            pymupdf_open B (fs w1) (pathlib.str (pathlib.Path s)) = Raise e ->
            convert_pdf_to_markdown B s out w
            = (Raise e, opened (pathlib.Path s) w1).
Proof.
  intros Hd Hs.
  assert (Hex : is_Some (node_at (fs w) (pathlib.Path s))) by (rewrite Hd; eauto).
  rewrite (convert_validated _ _ _ _ Hex Hs). split; [reflexivity|].
  intros od w1 D. exact (convert_valid_opens B _ _ _ _ _ D).
Qed.

Lemma existing_directory_passes_validation_witness :
  let w := world_of [("scans.pdf", Dir)] in
  node_at (fs w) (pathlib.Path "scans.pdf") = Some Dir
  /\ Str.lower (pathlib.suffix (pathlib.Path "scans.pdf")) = ".pdf"
  /\ convert_pdf_to_markdown (strict_backend 3) "scans.pdf" None w
     = convert_valid (strict_backend 3) (pathlib.Path "scans.pdf") None w.
Proof.
  intros w.
  assert (H1 : node_at (fs w) (pathlib.Path "scans.pdf") = Some Dir)
    by reflexivity.
  assert (H2 : Str.lower (pathlib.suffix (pathlib.Path "scans.pdf")) = ".pdf")
    by reflexivity.
  split; [exact H1 | split; [exact H2|]].
  exact (proj1 (existing_directory_passes_validation (strict_backend 3)
                  "scans.pdf" None w H1 H2)).
Defined.

(** C6, as the specification states it, fails: the source is a directory
    named [scans.pdf]; the function creates the output directory and calls
    the library to open the document, and the exception it raises is the
    one of the library. *)
Lemma directory_source_counterexample :
  let w := world_of [("scans.pdf", Dir)] in
  let r := convert_pdf_to_markdown (strict_backend 3) "scans.pdf"
             (Some "out") w in
  node_at (fs w) (pathlib.Path "scans.pdf") = Some Dir
  /\ fst r = Raise (RuntimeError "scans.pdf is no file")
  /\ calls (snd r) = [CallOpen "scans.pdf"]
  /\ node_at (fs w) (pathlib.Path "out") = None
  /\ node_at (fs (snd r)) (pathlib.Path "out") = Some Dir.
Proof. vm_compute. repeat split; reflexivity. Qed.

(** C1. A call that returns, on a document in which the library finds [n]
    pages, returns exactly [n] paths: the path at index [i] is the output
    directory joined with the file name [{base}_page_{i+1:03d}.md], the
    page number being written with at least three digits and reading back
    as [i+1] whatever its width; the paths are pairwise distinct. *)
Theorem one_path_per_page B s out w l w' :
  convert_pdf_to_markdown B s out w = (Return l, w') ->
  exists n w1,
    determine_output_dir (pathlib.Path s) out w
    = (Return (output_dir_of (pathlib.Path s) out), w1)
    /\ pymupdf_open B (fs w1) (pathlib.str (pathlib.Path s)) = Return n
    /\ length l = n
    /\ (forall i, i < n ->
          exists p,
            l !! i = Some (pathlib.str p)
            /\ p = pathlib.joinpath (output_dir_of (pathlib.Path s) out)
                     (pathlib.name p)
            /\ pathlib.name p
               = pathlib.stem (pathlib.Path s) +:+ "_page_"
                 +:+ Str.format_03d (i + 1) +:+ ".md"
            /\ 3 <= String.length (Str.format_03d (i + 1))
            /\ Str.to_nat (Str.format_03d (i + 1)) = Some (i + 1)
            /\ Str.format_03d (i + 1)
               = Str.zeros (3 - String.length (Str.of_nat (i + 1)))
                 +:+ Str.of_nat (i + 1)
            /\ (3 <= String.length (Str.of_nat (i + 1)) ->
                Str.format_03d (i + 1) = Str.of_nat (i + 1)))
    /\ NoDup l.
Proof.
  intros H. apply returned_paths in H as (n & w1 & D & O & _ & ->).
  pose proof (PathFacts.stem_no_slash _ (PathFacts.wf_Path s)) as Hb.
  exists n, w1. split; [exact D|]. split; [exact O|].
  split; [now rewrite length_map, length_seq|].
  split; [|now apply PathFacts.page_paths_NoDup].
  intros i Hi.
  exists (page_path (output_dir_of (pathlib.Path s) out)
            (pathlib.stem (pathlib.Path s)) i).
  rewrite (PathFacts.page_path_name _ _ Hb).
  split; [|split; [reflexivity|split; [reflexivity|]]].
  - rewrite list_lookup_fmap, lookup_seq_lt by exact Hi. reflexivity.
  - split; [apply StrFacts.format_03d_length|].
    split; [apply StrFacts.to_nat_format_03d|].
    split; [reflexivity | apply StrFacts.format_03d_wide].
Qed.

Lemma one_path_per_page_witness :
  let w := world_of [("sample_3pages.pdf", File "%PDF")] in
  exists w',
    convert_pdf_to_markdown (stub_backend 3) "sample_3pages.pdf"
      (Some "out/") w
    = (Return ["out/sample_3pages_page_001.md";
               "out/sample_3pages_page_002.md";
               "out/sample_3pages_page_003.md"], w')
    /\ NoDup ["out/sample_3pages_page_001.md";
              "out/sample_3pages_page_002.md";
              "out/sample_3pages_page_003.md"].
Proof.
  intros w.
  destruct (convert_pdf_to_markdown (stub_backend 3) "sample_3pages.pdf"
              (Some "out/") w) as [r w'] eqn:E.
  assert (Hr : r = Return ["out/sample_3pages_page_001.md";
                           "out/sample_3pages_page_002.md";
                           "out/sample_3pages_page_003.md"]).
  { apply (f_equal fst) in E. simpl in E. rewrite <- E.
    vm_compute. reflexivity. }
  subst r. exists w'. split; [reflexivity|].
  destruct (one_path_per_page _ _ _ _ _ _ E) as (n & w1 & _ & _ & _ & _ & ND).
  exact ND.
Defined.

(** C9. The returned paths do not depend on what the library renders: two
    calls on the same source path and output directory that find the same
    number of pages and return, return the same list, whatever the two
    libraries rendered and wrote and whatever the two worlds were. *)
Theorem returned_paths_ignore_rendering
    B1 B2 s out wa wb n oda odb ia ib wa0 wb0 la lb wa' wb' :
  prepare B1 (pathlib.Path s) out wa = (Return (oda, n, ia), wa0) ->
  prepare B2 (pathlib.Path s) out wb = (Return (odb, n, ib), wb0) ->
  convert_pdf_to_markdown B1 s out wa = (Return la, wa') ->
  convert_pdf_to_markdown B2 s out wb = (Return lb, wb') ->
  la = lb.
Proof.
  intros Pa Pb Ha Hb.
  apply returned_paths in Ha as (na & _ & _ & _ & Ea & ->).
  apply returned_paths in Hb as (nb & _ & _ & _ & Eb & ->).
  now rewrite <- (Ea _ _ _ _ Pa), <- (Eb _ _ _ _ Pb).
Qed.

Lemma returned_paths_ignore_rendering_witness :
  let wa := world_of [("a.pdf", File "%PDF")] in
  let wb := world_of [("a.pdf", File "%PDF"); ("out", Dir)] in
  exists oda odb ia ib wa0 wb0 la lb wa' wb',
    prepare (stub_backend 2) (pathlib.Path "a.pdf") (Some "out") wa
    = (Return (oda, 2, ia), wa0)
    /\ prepare (blank_backend 2) (pathlib.Path "a.pdf") (Some "out") wb
       = (Return (odb, 2, ib), wb0)
    /\ convert_pdf_to_markdown (stub_backend 2) "a.pdf" (Some "out") wa
       = (Return la, wa')
    /\ convert_pdf_to_markdown (blank_backend 2) "a.pdf" (Some "out") wb
       = (Return lb, wb')
    /\ fs wa' !! pathlib.Path "out/a_page_001.md"
       <> fs wb' !! pathlib.Path "out/a_page_001.md"
    /\ la = lb.
Proof.
  intros wa wb.
  destruct (prepare (stub_backend 2) (pathlib.Path "a.pdf") (Some "out") wa)
    as [pa wa0] eqn:Pa.
  destruct (prepare (blank_backend 2) (pathlib.Path "a.pdf") (Some "out") wb)
    as [pb wb0] eqn:Pb.
  destruct (convert_pdf_to_markdown (stub_backend 2) "a.pdf" (Some "out") wa)
    as [ra wa'] eqn:Ca.
  destruct (convert_pdf_to_markdown (blank_backend 2) "a.pdf" (Some "out") wb)
    as [rb wb'] eqn:Cb.
  assert (Hpa : pa = Return (pathlib.Path "out", 2, pathlib.Path "out/images")).
  { apply (f_equal fst) in Pa. simpl in Pa. rewrite <- Pa.
    vm_compute. reflexivity. }
  assert (Hpb : pb = Return (pathlib.Path "out", 2, pathlib.Path "out/images")).
  { apply (f_equal fst) in Pb. simpl in Pb. rewrite <- Pb.
    vm_compute. reflexivity. }
  assert (Hra : ra = Return ["out/a_page_001.md"; "out/a_page_002.md"]).
  { apply (f_equal fst) in Ca. simpl in Ca. rewrite <- Ca.
    vm_compute. reflexivity. }
  assert (Hrb : rb = Return ["out/a_page_001.md"; "out/a_page_002.md"]).
  { apply (f_equal fst) in Cb. simpl in Cb. rewrite <- Cb.
    vm_compute. reflexivity. }
  assert (Hdiff : fs wa' !! pathlib.Path "out/a_page_001.md"
                  <> fs wb' !! pathlib.Path "out/a_page_001.md").
  { apply (f_equal snd) in Ca, Cb. simpl in Ca, Cb. rewrite <- Ca, <- Cb.
    vm_compute. discriminate. }
  subst pa pb ra rb.
  exists (pathlib.Path "out"), (pathlib.Path "out"),
    (pathlib.Path "out/images"), (pathlib.Path "out/images"), wa0, wb0.
  exists ["out/a_page_001.md"; "out/a_page_002.md"],
    ["out/a_page_001.md"; "out/a_page_002.md"], wa', wb'.
  repeat (split; [first [reflexivity | exact Hdiff]|]).
  exact (returned_paths_ignore_rendering _ _ _ _ _ _ _ _ _ _ _ _ _ _ _ _ _
           Pa Pb Ca Cb).
Defined.

(** C7, as the code has it.  After the preparation, a call prints one
    progress line for each page it converted, in page order and after the
    four header lines; the line of page index [i] is two spaces followed by
    [Page {i+1}/{total_pages} -> {filename}], the file name being the one
    of that page.  The pages converted are all [n] pages when the call
    returns (the summary line then follows), and the pages before the
    failing one when it raises. *)
Theorem progress_line_per_page B s out w od n imgs w0 r w' :
  is_Some (node_at (fs w) (pathlib.Path s)) ->
  Str.lower (pathlib.suffix (pathlib.Path s)) = ".pdf" ->
  prepare B (pathlib.Path s) out w = (Return (od, n, imgs), w0) ->
  convert_pdf_to_markdown B s out w = (r, w') ->
  exists k acc w_k,
    k <= n
    /\ for_pages B (pathlib.Path s) od imgs (pathlib.stem (pathlib.Path s)) n
         (seq 0 k) [] w0 = (Return acc, w_k)
    /\ match r with Return _ => k = n | Raise _ => k < n end
    /\ stdout w' =
       stdout w0
       ++ map (fun i =>
                 "  Page " +:+ Str.of_nat (i + 1) +:+ "/" +:+ Str.of_nat n
                 +:+ " -> " +:+
                 (pathlib.stem (pathlib.Path s) +:+ "_page_"
                  +:+ Str.format_03d (i + 1) +:+ ".md"))
            (seq 0 k)
       ++ match r with
          | Return _ =>
              ["Successfully converted " +:+ Str.of_nat n +:+ " pages."]
          | Raise _ => []
          end.
Proof.
  intros Hex Hs P H. rewrite (convert_prepared _ _ _ _ _ _ _ _ Hex Hs P) in H.
  destruct (for_pages _ _ _ _ _ _ _ _ w0) as [[l|e] w1] eqn:L;
    injection H as <- <-.
  - exists n, l, w1. split; [lia|]. split; [exact L|]. split; [reflexivity|].
    apply for_pages_Return in L as (_ & So & _). simpl.
    rewrite So, <- app_assoc. reflexivity.
  - apply for_pages_Raise in L
      as (done & i & rest & acc_i & w_i & E & L & Pg).
    apply seq_split_inv in E as (E1 & _ & Hlt).
    exists (length done), acc_i, w_i. split; [lia|].
    rewrite <- E1. split; [exact L|]. split; [exact Hlt|].
    apply for_pages_Return in L as (_ & So & _).
    apply convert_page_Raise in Pg as [-> _]. simpl.
    now rewrite So, app_nil_r.
Qed.

Lemma progress_line_per_page_witness :
  let w := world_of [("a.pdf", File "%PDF")] in
  exists w0 w',
    is_Some (node_at (fs w) (pathlib.Path "a.pdf"))
    /\ Str.lower (pathlib.suffix (pathlib.Path "a.pdf")) = ".pdf"
    /\ prepare (failing_backend 3 2) (pathlib.Path "a.pdf") None w
       = (Return (pathlib.Path ".", 3, pathlib.Path "images"), w0)
    /\ convert_pdf_to_markdown (failing_backend 3 2) "a.pdf" None w
       = (Raise (RuntimeError "cannot render page"), w')
    /\ stdout w' =
       stdout w0 ++ ["  Page 1/3 -> a_page_001.md";
                     "  Page 2/3 -> a_page_002.md"].
Proof.
  intros w.
  destruct (prepare (failing_backend 3 2) (pathlib.Path "a.pdf") None w)
    as [p w0] eqn:P.
  destruct (convert_pdf_to_markdown (failing_backend 3 2) "a.pdf" None w)
    as [r w'] eqn:C.
  assert (Hp : p = Return (pathlib.Path ".", 3, pathlib.Path "images")).
  { apply (f_equal fst) in P. simpl in P. rewrite <- P.
    vm_compute. reflexivity. }
  assert (Hr : r = Raise (RuntimeError "cannot render page")).
  { apply (f_equal fst) in C. simpl in C. rewrite <- C.
    vm_compute. reflexivity. }
  subst p r.
  assert (H1 : is_Some (node_at (fs w) (pathlib.Path "a.pdf")))
    by (eexists; reflexivity).
  assert (H2 : Str.lower (pathlib.suffix (pathlib.Path "a.pdf")) = ".pdf")
    by reflexivity.
  exists w0, w'. repeat (split; [first [exact H1 | reflexivity]|]).
  destruct (progress_line_per_page _ _ _ _ _ _ _ _ _ _ H1 H2 P C)
    as (k & acc & w_k & _ & _ & Hk & So).
  rewrite So, app_nil_r. f_equal.
  assert (Ek : k = 2).
  { assert (L' : length (stdout w') = 6).
    { replace w' with
        (snd (convert_pdf_to_markdown (failing_backend 3 2) "a.pdf" None w))
        by now rewrite C.
      vm_compute. reflexivity. }
    assert (L0 : length (stdout w0) = 4).
    { replace w0 with
        (snd (prepare (failing_backend 3 2) (pathlib.Path "a.pdf") None w))
        by now rewrite P.
      vm_compute. reflexivity. }
    rewrite So, !length_app, length_map, length_seq, L0 in L'. simpl in L'.
    lia. }
  subst k. reflexivity.
Defined.

(** C7, as the specification states it, fails: the line printed for the
    page starts with two spaces, so its text is not exactly
    [Page 1/1 -> a_page_001.md]. *)
Lemma progress_line_counterexample :
  let w' := snd (convert_pdf_to_markdown (stub_backend 1) "a.pdf" None
                   (world_of [("a.pdf", File "%PDF")])) in
  stdout w' = ["Converting: a.pdf";
               "Total pages: 1";
               "Output directory: .";
               "Images directory: images";
               "  Page 1/1 -> a_page_001.md";
               "Successfully converted 1 pages."]
  /\ ~ In "Page 1/1 -> a_page_001.md" (stdout w').
Proof.
  vm_compute. split; [reflexivity|].
  intros H. repeat (destruct H as [H|H]; [discriminate H|]). exact H.
Qed.

(** C5. A document without pages.  When the source passes both checks, no
    regular file is in the way of the images directory and the library
    finds zero pages, the call returns the empty list.  Afterwards the
    output directory (when one was supplied) and its [images] subdirectory
    are directories; the file system differs from the initial one by added
    directories only, so no Markdown file, nor any other file, was written;
    the library was asked to open the document and never to render a page;
    and the output is the four header lines and the summary line. *)
Theorem zero_pages_succeed B s out w :
  is_Some (node_at (fs w) (pathlib.Path s)) ->
  Str.lower (pathlib.suffix (pathlib.Path s)) = ".pdf" ->
  no_file_above (fs w)
    (pathlib.joinpath (output_dir_of (pathlib.Path s) out) "images") ->
  (forall f, adds_dirs (fs w) f ->
     pymupdf_open B f (pathlib.str (pathlib.Path s)) = Return 0) ->
  exists w',
    convert_pdf_to_markdown B s out w = (Return [], w')
    /\ (forall d, out = Some d -> node_at (fs w') (pathlib.Path d) = Some Dir)
    /\ node_at (fs w')
         (pathlib.joinpath (output_dir_of (pathlib.Path s) out) "images")
       = Some Dir
    /\ adds_dirs (fs w) (fs w')
    /\ (forall q t, fs w' !! q = Some (File t) -> fs w !! q = Some (File t))
    /\ calls w' = calls w ++ [CallOpen (pathlib.str (pathlib.Path s))]
    /\ stdout w' =
       stdout w
       ++ ["Converting: " +:+ pathlib.str (pathlib.Path s);
           "Total pages: 0";
           "Output directory: "
             +:+ pathlib.str (output_dir_of (pathlib.Path s) out);
           "Images directory: "
             +:+ pathlib.str
                   (pathlib.joinpath (output_dir_of (pathlib.Path s) out)
                      "images");
           "Successfully converted 0 pages."].
Proof.
  intros Hex Hs Hfree Hopen.
  destruct (prepare_succeeds B _ out w 0 Hfree Hopen) as [w0 P].
  rewrite (convert_prepared _ _ _ _ _ _ _ _ Hex Hs P). simpl.
  apply prepare_Return in P
    as (w1 & _ & _ & _ & _ & Ad1 & Ad2 & Hi & Ho & So & Ca).
  assert (Ad : adds_dirs (fs w) (fs w0)) by (eapply adds_dirs_trans; eauto).
  exists (finished 0 w0). split; [reflexivity|]. simpl.
  split; [intros d ->; now apply (Ho d)|]. split; [exact Hi|].
  split; [exact Ad|]. split; [intros q t; now apply adds_dirs_file|].
  split; [exact Ca|]. rewrite So. unfold header.
  now rewrite <- app_assoc.
Qed.

Lemma zero_pages_succeed_witness :
  let w := world_of [("empty.pdf", File "%PDF")] in
  is_Some (node_at (fs w) (pathlib.Path "empty.pdf"))
  /\ Str.lower (pathlib.suffix (pathlib.Path "empty.pdf")) = ".pdf"
  /\ no_file_above (fs w) (pathlib.Path "out/md/images")
  /\ exists w',
       convert_pdf_to_markdown (stub_backend 0) "empty.pdf" (Some "out/md") w
       = (Return [], w')
       /\ node_at (fs w') (pathlib.Path "out/md") = Some Dir
       /\ node_at (fs w') (pathlib.Path "out/md/images") = Some Dir
       /\ calls w' = [CallOpen "empty.pdf"].
Proof.
  intros w.
  assert (H1 : is_Some (node_at (fs w) (pathlib.Path "empty.pdf")))
    by (eexists; reflexivity).
  assert (H2 : Str.lower (pathlib.suffix (pathlib.Path "empty.pdf")) = ".pdf")
    by reflexivity.
  assert (H3 : no_file_above (fs w) (pathlib.Path "out/md/images")).
  { intros q t Hr [k Hk]. destruct q as [rt ps]. simpl in Hr, Hk. subst rt.
    destruct ps as [|a [|b [|c [|x ps]]]]; simpl in Hk;
      [discriminate | | | |].
    - injection Hk as <- _. vm_compute. discriminate.
    - injection Hk as <- <- _. vm_compute. discriminate.
    - injection Hk as <- <- <- _. vm_compute. discriminate.
    - discriminate. }
  split; [exact H1 | split; [exact H2 | split; [exact H3|]]].
  destruct (zero_pages_succeed (stub_backend 0) "empty.pdf" (Some "out/md") w
              H1 H2 H3 (fun _ _ => eq_refl))
    as (w' & E & Ho & Hi & _ & _ & Ca & _).
  exists w'. split; [exact E|]. split; [exact (Ho _ eq_refl)|].
  split; [exact Hi | exact Ca].
Defined.




(** A write that raises: the path of the second page is a directory. *)
Example write_failure_aborts :
  let w := world_of [("a.pdf", File "%PDF"); ("a_page_002.md", Dir)] in
  let r := convert_pdf_to_markdown (stub_backend 3) "a.pdf" None w in
  fst r = Raise (IsADirectoryError "a_page_002.md")
  /\ fs (snd r) !! pathlib.Path "a_page_001.md"
     = Some (File "text of page 0")
  /\ fs (snd r) !! pathlib.Path "a_page_003.md" = None
  /\ calls (snd r) = [CallOpen "a.pdf";
                      CallToMarkdown "a.pdf" 0 "images";
                      CallToMarkdown "a.pdf" 1 "images"].
Proof. vm_compute. repeat split; reflexivity. Qed.

(** C8. Creating directories that exist.  [mkdir] on an existing directory
    returns and changes nothing.  Take an existing output directory in
    which the [images] entry is not a regular file and no page path is a
    directory, a source that passes both checks, a library that opens the
    document and renders its pages, and an operating system that carries
    out the writes of the page files.  Then a first call returns, and a
    second call on the world the first one left returns the same list; in
    that world creating the output directory and the images directory
    changes nothing.  A regular file that was there before the first call,
    is not below the images directory and is not the file of a page, is
    the same after the first call and after the second. *)
Theorem directory_creation_is_idempotent B s d w n :
  confined B ->
  is_Some (node_at (fs w) (pathlib.Path s)) ->
  Str.lower (pathlib.suffix (pathlib.Path s)) = ".pdf" ->
  ~ is_under (pathlib.joinpath (pathlib.Path d) "images") (pathlib.Path s) ->
  node_at (fs w) (pathlib.Path d) = Some Dir ->
  (forall t,
     node_at (fs w) (pathlib.joinpath (pathlib.Path d) "images")
     <> Some (File t)) ->
  (forall j, j < n ->
     node_at (fs w)
       (page_path (pathlib.Path d) (pathlib.stem (pathlib.Path s)) j)
     <> Some Dir) ->
  (forall f, pymupdf_open B f (pathlib.str (pathlib.Path s)) = Return n) ->
  (forall f j, exists t,
     snd (to_markdown B f (pathlib.str (pathlib.Path s)) j
            (pathlib.str (pathlib.joinpath (pathlib.Path d) "images")))
     = Return t) ->
  (forall j t, j < n ->
     faults w (page_path (pathlib.Path d) (pathlib.stem (pathlib.Path s)) j) t
     = None) ->
  (forall p v, node_at (fs v) p = Some Dir -> mkdir p v = (Return tt, v))
  /\ exists l w1 w2,
       convert_pdf_to_markdown B s (Some d) w = (Return l, w1)
       /\ convert_pdf_to_markdown B s (Some d) w1 = (Return l, w2)
       /\ mkdir (pathlib.Path d) w1 = (Return tt, w1)
       /\ mkdir (pathlib.joinpath (pathlib.Path d) "images") w1
          = (Return tt, w1)
       /\ forall q t,
            fs w !! q = Some (File t) ->
            ~ is_under (pathlib.joinpath (pathlib.Path d) "images") q ->
            (forall j, j < n ->
               q <> page_path (pathlib.Path d)
                      (pathlib.stem (pathlib.Path s)) j) ->
            fs w1 !! q = Some (File t) /\ fs w2 !! q = Some (File t).
Proof.
  intros HB Hex Hs Hsrc Hod Himg Hpages Hopen Hren Hok.
  split; [exact mkdir_existing|].
  destruct (convert_succeeds B s d w n HB Hs Hsrc Hopen Hren)
    as (w1 & C1 & Fa1 & R1 & I1 & F1);
    [repeat split; assumption | exact Hok |].
  destruct (convert_succeeds B s d w1 n HB Hs Hsrc Hopen Hren R1)
    as (w2 & C2 & _ & _ & _ & F2).
  { intros j t Hj. rewrite Fa1. now apply Hok. }
  eexists _, w1, w2. split; [exact C1|]. split; [exact C2|].
  destruct R1 as (_ & Hod1 & _).
  split; [now apply mkdir_existing|]. split; [now apply mkdir_existing|].
  intros q t Hq Hnu Hnp.
  assert (Hne : q <> pathlib.joinpath (pathlib.Path d) "images").
  { intros ->. apply (Himg t).
    rewrite node_at_lookup; [exact Hq|].
    rewrite PathFacts.images_eq. simpl. now destruct (parts (pathlib.Path d)). }
  assert (E1 : fs w1 !! q = Some (File t)) by now rewrite F1.
  split; [exact E1|]. now rewrite F2.
Qed.

Lemma directory_creation_is_idempotent_witness :
  let w := world_of [("doc.pdf", File "%PDF"); ("out", Dir);
                     ("out/notes.txt", File "keep me")] in
  exists l w1 w2,
    convert_pdf_to_markdown (stub_backend 2) "doc.pdf" (Some "out") w
    = (Return l, w1)
    /\ convert_pdf_to_markdown (stub_backend 2) "doc.pdf" (Some "out") w1
       = (Return l, w2)
    /\ fs w2 !! pathlib.Path "out/notes.txt" = Some (File "keep me").
Proof.
  intros w.
  assert (H1 : is_Some (node_at (fs w) (pathlib.Path "doc.pdf")))
    by (eexists; reflexivity).
  assert (H2 : Str.lower (pathlib.suffix (pathlib.Path "doc.pdf")) = ".pdf")
    by reflexivity.
  assert (H3 : ~ is_under (pathlib.joinpath (pathlib.Path "out") "images")
                 (pathlib.Path "doc.pdf")).
  { intros (_ & [k Hk] & _). vm_compute in Hk. discriminate Hk. }
  assert (H4 : node_at (fs w) (pathlib.Path "out") = Some Dir)
    by reflexivity.
  assert (H5 : forall t,
            node_at (fs w) (pathlib.joinpath (pathlib.Path "out") "images")
            <> Some (File t)).
  { intros t. vm_compute. discriminate. }
  assert (H6 : forall j, j < 2 ->
            node_at (fs w)
              (page_path (pathlib.Path "out")
                 (pathlib.stem (pathlib.Path "doc.pdf")) j) <> Some Dir).
  { intros [|[|j]] Hj; [vm_compute; discriminate..|lia]. }
  destruct (directory_creation_is_idempotent (stub_backend 2) "doc.pdf" "out"
              w 2 (stub_backend_confined 2) H1 H2 H3 H4 H5 H6
              (fun _ => eq_refl) (fun _ _ => ex_intro _ _ eq_refl)
              (fun _ _ _ => eq_refl))
    as (_ & l & w1 & w2 & C1 & C2 & _ & _ & F).
  exists l, w1, w2. split; [exact C1|]. split; [exact C2|].
  apply (F (pathlib.Path "out/notes.txt") "keep me").
  - reflexivity.
  - intros (_ & [k Hk] & _). vm_compute in Hk. discriminate Hk.
  - intros [|[|j]] Hj; [vm_compute; discriminate..|lia].
Defined.

(** ** Further lemmas: directory creation, suffixes, case analysis *)

Module MoreFacts.

Local Arguments String.append !_ _ / : simpl nomatch.

(** [exist_ok] does not accept a regular file. *)
Lemma mkdir_on_file p w t :
  node_at (fs w) p = Some (File t) ->
  mkdir p w = (Raise (FileExistsError (pathlib.str p)), w).
Proof.
  intros H. unfold mkdir. rewrite mkdir_parents_eq. cbv zeta.
  rewrite rev_involutive. replace {| root := root p; parts := parts p |}
    with p by now destruct p.
  unfold try_except, os_mkdir. rewrite H.
  unfold bind, is_dir, raise. rewrite H.
  now rewrite bool_decide_eq_false_2.
Qed.

(** The extension of a page file is [.md]. *)

Lemma rfind_app c (a b : string) i :
  Str.rfind c b = Some i -> Str.rfind c (a +:+ b) = Some (String.length a + i).
Proof.
  intros H. induction a as [|x a IH]; simpl; [exact H|]. now rewrite IH.
Qed.

Lemma from_app (a b : string) : Str.from (String.length a) (a +:+ b) = b.
Proof. induction a as [|x a IH]; simpl; [now destruct b | exact IH]. Qed.

Lemma suffix_md (a : string) (p : PurePath) :
  pathlib.name p = a +:+ ".md" -> a <> "" -> pathlib.suffix p = ".md".
Proof.
  intros Hn Ha. unfold pathlib.suffix. rewrite Hn.
  rewrite (rfind_app "." a ".md" 0 eq_refl), Nat.add_0_r.
  rewrite StrFacts.length_append. simpl String.length.
  destruct a as [|x a]; [congruence|]. simpl String.length.
  replace ((0 <? S (String.length a))
           && (S (String.length a) <? S (String.length a) + 3 - 1))%nat
    with true.
  - change (S (String.length a)) with (String.length (String x a)).
    apply from_app.
  - symmetry. apply andb_true_iff. split; apply Nat.ltb_lt; lia.
Qed.

Lemma page_path_suffix od base i :
  Str.contains "/" base = false ->
  pathlib.suffix (page_path od base i) = ".md".
Proof.
  intros Hb.
  apply (suffix_md (base +:+ "_page_" +:+ Str.format_03d (i + 1))).
  - rewrite (PathFacts.page_path_name _ _ Hb). unfold output_filename.
    now rewrite !StrFacts.append_assoc.
  - intros E. apply (f_equal String.length) in E.
    rewrite !StrFacts.length_append in E. simpl in E. lia.
Qed.

Lemma page_path_wf od base i :
  wf_path od -> wf_path (page_path od base i).
Proof. intros H. now apply PathFacts.wf_joinpath. Qed.

(** A source that passed the extension check is not a page file. *)
Lemma source_is_no_page s od i :
  Str.lower (pathlib.suffix (pathlib.Path s)) = ".pdf" ->
  pathlib.Path s <> page_path od (pathlib.stem (pathlib.Path s)) i.
Proof.
  intros Hs E. rewrite E in Hs at 1.
  rewrite page_path_suffix in Hs; [discriminate|].
  apply PathFacts.stem_no_slash, PathFacts.wf_Path.
Qed.

Lemma output_dir_of_wf s out : wf_path (output_dir_of (pathlib.Path s) out).
Proof.
  destruct out; simpl;
    [apply PathFacts.wf_Path | apply PathFacts.wf_parent, PathFacts.wf_Path].
Qed.

(** The preparation, whatever its outcome. *)
Lemma prepare_any B pdf_path out w r w0 :
  prepare B pdf_path out w = (r, w0) ->
  adds_dirs (fs w) (fs w0)
  /\ (calls w0 = calls w
      \/ calls w0 = calls w ++ [CallOpen (pathlib.str pdf_path)])
  /\ (forall e, r = Raise e -> stdout w0 = stdout w).
Proof.
  rewrite prepare_eq.
  destruct (determine_output_dir pdf_path out w) as [[od|e] w1] eqn:D;
    apply determine_output_dir_inv in D as (So & Ca & Ad & _).
  2:{ intros [= <- <-]. repeat split; auto. }
  destruct (pymupdf_open B (fs w1) (pathlib.str pdf_path)) as [n|e].
  2:{ intros [= <- <-]. simpl. repeat split; auto. right. now rewrite Ca. }
  cbv zeta.
  destruct (mkdir _ (opened pdf_path w1)) as [[u|e] w2] eqn:K;
    apply mkdir_like_mkdir in K as (So2 & Ca2 & Ad2 & _); simpl in *;
    intros [= <- <-]; simpl.
  - split; [eapply adds_dirs_trans; eauto|]. split; [|discriminate].
    right. now rewrite Ca2, Ca.
  - split; [eapply adds_dirs_trans; eauto|]. split; [|congruence].
    right. now rewrite Ca2, Ca.
Qed.

(** The three ways a call can go. *)
Lemma convert_inv B s out w r w' :
  convert_pdf_to_markdown B s out w = (r, w') ->
  w' = w
  \/ (Str.lower (pathlib.suffix (pathlib.Path s)) = ".pdf"
      /\ is_Some (node_at (fs w) (pathlib.Path s))
      /\ ((exists e, r = Raise e
                     /\ prepare B (pathlib.Path s) out w = (Raise e, w'))
          \/ exists od n imgs w0 r1 w1,
               prepare B (pathlib.Path s) out w = (Return (od, n, imgs), w0)
               /\ for_pages B (pathlib.Path s) od imgs
                    (pathlib.stem (pathlib.Path s)) n (seq 0 n) [] w0
                  = (r1, w1)
               /\ fs w' = fs w1)).
Proof.
  intros H.
  destruct (decide (is_Some (node_at (fs w) (pathlib.Path s)))) as [Hex|Hex].
  2:{ left. assert (N : node_at (fs w) (pathlib.Path s) = None).
      { destruct (node_at (fs w) (pathlib.Path s)); [|reflexivity].
        exfalso. apply Hex. eauto. }
      rewrite (convert_missing _ _ _ _ N) in H. congruence. }
  destruct (decide (Str.lower (pathlib.suffix (pathlib.Path s)) = ".pdf"))
    as [Hs|Hs].
  2:{ left. rewrite (convert_not_pdf _ _ _ _ Hex Hs) in H. congruence. }
  right. split; [exact Hs|]. split; [exact Hex|].
  rewrite (convert_validated _ _ _ _ Hex Hs), convert_valid_eq in H.
  destruct (prepare B (pathlib.Path s) out w) as [[[[od n] imgs]|e] w0] eqn:P.
  - right.
    destruct (for_pages _ _ _ _ _ _ _ _ w0) as [[l|e] w1] eqn:L;
      injection H as <- <-; exists od, n, imgs, w0; eauto 10.
  - left. injection H as <- <-. eauto.
Qed.

(** What a call leaves alone, whatever its outcome. *)
Lemma convert_frame B s out w r w' q v :
  confined B ->
  convert_pdf_to_markdown B s out w = (r, w') ->
  fs w !! q = Some v ->
  ~ is_under (pathlib.joinpath (output_dir_of (pathlib.Path s) out) "images")
      q ->
  (forall j, q <> page_path (output_dir_of (pathlib.Path s) out)
                    (pathlib.stem (pathlib.Path s)) j) ->
  fs w' !! q = Some v.
Proof.
  intros HB H Hq Hnu Hnp.
  apply convert_inv in H as [->|(_ & _ & [(e & _ & P)|H])]; [exact Hq| |].
  - apply prepare_any in P as (Ad & _). eapply adds_dirs_keeps; eauto.
  - destruct H as (od & n & imgs & w0 & r1 & w1 & P & L & ->).
    apply prepare_Return in P
      as (w2 & _ & -> & -> & _ & Ad1 & Ad2 & _).
    rewrite (for_pages_frame B _ _ _ _ n HB eq_refl
               (output_dir_of_wf s out) _ _ _ _ _ q L Hnu)
      by (intros j _; apply Hnp).
    eapply adds_dirs_keeps; [|exact Hq]. eapply adds_dirs_trans; eauto.
Qed.

(** The order of strings. *)

Lemma compare_app_l (p a b : string) :
  String.compare (p +:+ a) (p +:+ b) = String.compare a b.
Proof.
  induction p as [|x p IH]; simpl; [reflexivity|].
  assert (E : Ascii.compare x x = Eq) by (unfold Ascii.compare; apply N.compare_refl).
  now rewrite E.
Qed.

Lemma compare_app_r (a b c d : string) :
  String.length a = String.length b ->
  String.compare a b = Lt -> String.compare (a +:+ c) (b +:+ d) = Lt.
Proof.
  revert b. induction a as [|x a IH]; intros [|y b] Hl; simpl in *;
    try discriminate.
  destruct (Ascii.compare x y); try discriminate; [|reflexivity].
  apply IH. now injection Hl.
Qed.

Lemma compare_lt_trans (a b c : string) :
  String.compare a b = Lt -> String.compare b c = Lt ->
  String.compare a c = Lt.
Proof.
  revert b c. induction a as [|x a IH]; intros [|y b] [|z c]; simpl;
    try discriminate; try reflexivity.
  unfold Ascii.compare.
  destruct (N.compare_spec (N_of_ascii x) (N_of_ascii y)) as [E|E|E];
    try discriminate;
    destruct (N.compare_spec (N_of_ascii y) (N_of_ascii z)) as [F|F|F];
    try discriminate; intros H1 H2.
  - rewrite E, F, N.compare_refl. eapply IH; eauto.
  - rewrite E. now apply N.compare_lt_iff in F as ->.
  - rewrite <- F. now apply N.compare_lt_iff in E as ->.
  - assert (G : (N_of_ascii x < N_of_ascii z)%N) by (eapply N.lt_trans; eauto).
    now apply N.compare_lt_iff in G as ->.
Qed.

Lemma three_digit_steps : forallb three_digit_step (seq 0 999) = true.
Proof. vm_compute. reflexivity. Qed.

Lemma format_03d_step k :
  k < 999 ->
  String.length (Str.format_03d k) = 3
  /\ String.length (Str.format_03d (S k)) = 3
  /\ String.compare (Str.format_03d k) (Str.format_03d (S k)) = Lt.
Proof.
  intros Hk. pose proof three_digit_steps as H.
  rewrite forallb_forall in H. specialize (H k).
  assert (Hin : In k (seq 0 999)) by (apply in_seq; lia).
  apply H in Hin. unfold three_digit_step in Hin.
  apply andb_true_iff in Hin as [Hin H3]. apply andb_true_iff in Hin as [H1 H2].
  apply Nat.eqb_eq in H1, H2. unfold String.ltb in H3.
  destruct (String.compare _ _); try discriminate. auto.
Qed.

Lemma format_03d_lt a b :
  a < b -> b <= 999 ->
  String.length (Str.format_03d a) = 3
  /\ String.length (Str.format_03d b) = 3
  /\ String.compare (Str.format_03d a) (Str.format_03d b) = Lt.
Proof.
  intros Hab Hb. induction b as [|b IH]; [lia|].
  destruct (format_03d_step b) as (L1 & L2 & C); [lia|].
  destruct (Nat.eq_dec a b) as [->|Hne]; [auto|].
  destruct IH as (La & _ & Ca); [lia..|].
  repeat split; auto. eapply compare_lt_trans; eauto.
Qed.

End MoreFacts.

(** ** Further properties of the code *)

Import MoreFacts.

(** Evaluate the run [t] to its result [r]: [C : t = (r, w')], with [w']
    standing for the world the run leaves. *)
Ltac computed_run t r C w' :=
  assert (C : fst t = r) by (vm_compute; reflexivity);
  apply pair_eta_fst in C;
  set (w' := snd t) in *.

Lemma main_usage B argv w :
  length argv < 2 ->
  main B argv w = (Return (Exited 1), printed module_doc w).
Proof.
  intros H. unfold main. apply Nat.ltb_lt in H. now rewrite H.
Qed.

Lemma main_eq B argv w :
  2 <= length argv ->
  main B argv w =
  match convert_pdf_to_markdown B (argv_at argv 1) (output_dir_arg argv) w with
  | (Return _, w1) => (Return Returned, w1)
  | (Raise e, w1) =>
      (Return (Exited 1), printed (error_prefix e +:+ exn_str e) w1)
  end.
Proof.
  intros H. unfold main. apply Nat.ltb_ge in H. rewrite H.
  unfold try_except, bind, output_dir_arg.
  destruct (convert_pdf_to_markdown _ _ _ w) as [[l|e] w1]; [reflexivity|].
  now destruct e.
Qed.

(** The call fails at page [i]. *)
Lemma convert_fails_at_page B s out w od n imgs w0 i acc w_i e w_f :
  is_Some (node_at (fs w) (pathlib.Path s)) ->
  Str.lower (pathlib.suffix (pathlib.Path s)) = ".pdf" ->
  prepare B (pathlib.Path s) out w = (Return (od, n, imgs), w0) ->
  i < n ->
  for_pages B (pathlib.Path s) od imgs (pathlib.stem (pathlib.Path s)) n
    (seq 0 i) [] w0 = (Return acc, w_i) ->
  convert_page B (pathlib.Path s) od imgs (pathlib.stem (pathlib.Path s)) n
    acc i w_i = (Raise e, w_f) ->
  convert_pdf_to_markdown B s out w = (Raise e, w_f).
Proof.
  intros Hex Hs P Hi L Pg.
  rewrite (convert_prepared _ _ _ _ _ _ _ _ Hex Hs P).
  replace n with (i + S (n - i - 1)) at 2 by lia.
  rewrite seq_app, for_pages_app, L. simpl seq.
  now rewrite for_pages_cons, Pg.
Qed.

(** X1. The exit status of the script is [0] or [1], and it is [0] exactly
    when the libraries are installed, a source path was given on the
    command line and the conversion of that path (into the directory given
    as second argument, when there is one) returned. *)
Theorem script_exit_status B installed argv w :
  exists code w',
    script B installed argv w = (Return code, w')
    /\ (code = 0 \/ code = 1)
    /\ (code = 0 <->
        installed = true /\ 2 <= length argv
        /\ exists l w1,
             convert_pdf_to_markdown B (argv_at argv 1) (output_dir_arg argv) w
             = (Return l, w1)).
Proof.
  unfold script. destruct installed; simpl.
  2:{ eexists 1, _. split; [reflexivity|]. split; [now right|].
      split; [discriminate | now intros [? _]]. }
  unfold bind. destruct (le_lt_dec 2 (length argv)) as [H|H].
  - rewrite (main_eq _ _ _ H).
    destruct (convert_pdf_to_markdown _ _ _ w) as [[l|e] w1] eqn:C.
    + exists 0, w1. split; [reflexivity|]. split; [now left|].
      split; [eauto 6 | reflexivity].
    + exists 1, (printed (error_prefix e +:+ exn_str e) w1).
      split; [reflexivity|]. split; [now right|].
      split; [discriminate|]. intros (_ & _ & l & w2 & [=]).
  - rewrite (main_usage _ _ _ H). exists 1, (printed module_doc w).
    split; [reflexivity|]. split; [now right|].
    split; [discriminate | intros (_ & H2 & _); lia].
Qed.

(** X2. The three early failures of [main] leave the file system and the
    libraries alone, print one line and end in [sys.exit(1)]: without a
    source argument the line is the docstring of the module; for a source
    that does not exist it is [Error: PDF file not found: {path}]; for one
    that exists with another extension it is
    [Error: File does not appear to be a PDF: {path}]. *)
Theorem main_early_failures B argv w :
  (length argv < 2 ->
   main B argv w = (Return (Exited 1), printed module_doc w))
  /\ (2 <= length argv ->
      node_at (fs w) (pathlib.Path (argv_at argv 1)) = None ->
      main B argv w =
      (Return (Exited 1),
       printed ("Error: PDF file not found: "
                +:+ pathlib.str (pathlib.Path (argv_at argv 1))) w))
  /\ (2 <= length argv ->
      is_Some (node_at (fs w) (pathlib.Path (argv_at argv 1))) ->
      Str.lower (pathlib.suffix (pathlib.Path (argv_at argv 1))) <> ".pdf" ->
      main B argv w =
      (Return (Exited 1),
       printed ("Error: File does not appear to be a PDF: "
                +:+ pathlib.str (pathlib.Path (argv_at argv 1))) w)).
Proof.
  split; [apply main_usage|]. split.
  - intros H N. now rewrite (main_eq _ _ _ H), (convert_missing _ _ _ _ N).
  - intros H Hex Hs.
    now rewrite (main_eq _ _ _ H), (convert_not_pdf _ _ _ _ Hex Hs).
Qed.

Lemma main_early_failures_witness :
  let w := world_of [("notes.txt", File "plain text")] in
  (length ["prog"] < 2
   /\ main (stub_backend 2) ["prog"] w
      = (Return (Exited 1), printed module_doc w))
  /\ (2 <= length ["prog"; "missing.pdf"; "out"]
      /\ node_at (fs w) (pathlib.Path "missing.pdf") = None
      /\ main (stub_backend 2) ["prog"; "missing.pdf"; "out"] w
         = (Return (Exited 1),
            printed "Error: PDF file not found: missing.pdf" w))
  /\ (2 <= length ["prog"; "notes.txt"]
      /\ is_Some (node_at (fs w) (pathlib.Path "notes.txt"))
      /\ Str.lower (pathlib.suffix (pathlib.Path "notes.txt")) <> ".pdf"
      /\ main (stub_backend 2) ["prog"; "notes.txt"] w
         = (Return (Exited 1),
            printed "Error: File does not appear to be a PDF: notes.txt" w)).
Proof.
  intros w.
  assert (H1 : length ["prog"] < 2) by (simpl; lia).
  assert (H2 : 2 <= length ["prog"; "missing.pdf"; "out"]) by (simpl; lia).
  assert (H3 : node_at (fs w) (pathlib.Path "missing.pdf") = None)
    by reflexivity.
  assert (H4 : 2 <= length ["prog"; "notes.txt"]) by (simpl; lia).
  assert (H5 : is_Some (node_at (fs w) (pathlib.Path "notes.txt")))
    by (eexists; reflexivity).
  assert (H6 : Str.lower (pathlib.suffix (pathlib.Path "notes.txt")) <> ".pdf")
    by (vm_compute; discriminate).
  split; [split; [exact H1|]|split; [split; [exact H2|split; [exact H3|]]
                                   |split; [exact H4|split; [exact H5|
                                    split; [exact H6|]]]]].
  - exact (proj1 (main_early_failures (stub_backend 2) ["prog"] w) H1).
  - exact (proj1 (proj2 (main_early_failures (stub_backend 2)
                           ["prog"; "missing.pdf"; "out"] w)) H2 H3).
  - exact (proj2 (proj2 (main_early_failures (stub_backend 2)
                           ["prog"; "notes.txt"] w)) H4 H5 H6).
Defined.

(** X3. A failure in the middle of a run, seen from the command line.
    When the preparation went through, the pages before page [i] were
    converted and converting page [i] raises [e], [main] ends in
    [sys.exit(1)]; what it printed after the header is the progress lines
    of the pages [0..i-1] and then one line, [Error: ] followed by the
    message when [e] is a [FileNotFoundError] or a [ValueError] and
    [Error during conversion: ] followed by the message otherwise; the
    file system is the one the failing page left, and in it the file of
    every page [j < i] is a regular file: [main] removes nothing. *)
Theorem main_after_page_failure B argv w od n imgs w0 i acc w_i e w_f :
  confined B ->
  2 <= length argv ->
  is_Some (node_at (fs w) (pathlib.Path (argv_at argv 1))) ->
  Str.lower (pathlib.suffix (pathlib.Path (argv_at argv 1))) = ".pdf" ->
  prepare B (pathlib.Path (argv_at argv 1)) (output_dir_arg argv) w
  = (Return (od, n, imgs), w0) ->
  i < n ->
  for_pages B (pathlib.Path (argv_at argv 1)) od imgs
    (pathlib.stem (pathlib.Path (argv_at argv 1))) n (seq 0 i) [] w0
  = (Return acc, w_i) ->
  convert_page B (pathlib.Path (argv_at argv 1)) od imgs
    (pathlib.stem (pathlib.Path (argv_at argv 1))) n acc i w_i
  = (Raise e, w_f) ->
  exists w',
    main B argv w = (Return (Exited 1), w')
    /\ stdout w' =
       stdout w0
       ++ map (fun j =>
                 "  Page " +:+ Str.of_nat (j + 1) +:+ "/" +:+ Str.of_nat n
                 +:+ " -> " +:+
                 (pathlib.stem (pathlib.Path (argv_at argv 1)) +:+ "_page_"
                  +:+ Str.format_03d (j + 1) +:+ ".md"))
            (seq 0 i)
       ++ [match e with
           | FileNotFoundError _ | ValueError _ => "Error: "
           | _ => "Error during conversion: "
           end +:+ exn_str e]
    /\ fs w' = fs w_f
    /\ forall j, j < i ->
         exists t,
           fs w' !! page_path od
                      (pathlib.stem (pathlib.Path (argv_at argv 1))) j
           = Some (File t).
Proof.
  intros HB Hlen Hex Hs P Hi L Pg.
  pose proof (convert_page_Raise _ _ _ _ _ _ _ _ _ _ _ Pg) as (Sp & _).
  pose proof (convert_fails_at_page _ _ _ _ _ _ _ _ _ _ _ _ _
                Hex Hs P Hi L Pg)
    as C.
  rewrite (main_eq _ _ _ Hlen), C.
  eexists. split; [reflexivity|].
  pose proof (PathFacts.stem_no_slash _
                (PathFacts.wf_Path (argv_at argv 1))) as Hb.
  pose proof (prepare_Return _ _ _ _ _ _ _ _ P)
    as (w1 & _ & Eod & Eimgs & _).
  assert (Hwf : wf_path od) by (rewrite Eod; apply output_dir_of_wf).
  split; [|split; [reflexivity|]].
  - simpl. pose proof (for_pages_Return _ _ _ _ _ _ _ _ _ _ _ L)
      as (_ & So & _).
    rewrite Sp, So, <- app_assoc. reflexivity.
  - intros j Hj. unfold printed. cbn [fs].
    destruct (for_pages_written B _ od imgs _ n HB Eimgs Hwf Hb
                (seq 0 i) [] w0 acc w_i j L (NoDup_seq 0 i))
      as (_ & _ & _ & _ & t & _ & _ & _ & F); [apply in_seq; lia|].
    exists t.
    rewrite (convert_page_frame B _ od imgs _ n HB Eimgs Hwf
               _ _ _ _ _ _ Pg).
    + exact F.
    + eapply path_of_not_under; eauto.
    + intros E. apply PathFacts.page_path_inj in E; [lia | exact Hb].
Qed.

Lemma main_after_page_failure_witness :
  let w := world_of [("a.pdf", File "%PDF")] in
  let B := failing_backend 3 1 in
  exists w',
    main B ["prog"; "a.pdf"; "out"] w = (Return (Exited 1), w')
    /\ stdout w' = ["Converting: a.pdf";
                    "Total pages: 3";
                    "Output directory: out";
                    "Images directory: out/images";
                    "  Page 1/3 -> a_page_001.md";
                    "Error during conversion: cannot render page"]
    /\ exists t, fs w' !! pathlib.Path "out/a_page_001.md" = Some (File t).
Proof.
  intros w B.
  set (argv := ["prog"; "a.pdf"; "out"]).
  set (w0 := snd (prepare B (pathlib.Path "a.pdf") (Some "out") w)).
  set (w_1 := snd (for_pages B (pathlib.Path "a.pdf") (pathlib.Path "out")
                     (pathlib.Path "out/images") "a" 3 (seq 0 1) [] w0)).
  set (w_f := snd (convert_page B (pathlib.Path "a.pdf") (pathlib.Path "out")
                     (pathlib.Path "out/images") "a" 3
                     ["out/a_page_001.md"] 1 w_1)).
  assert (P : prepare B (pathlib.Path (argv_at argv 1)) (output_dir_arg argv) w
              = (Return (pathlib.Path "out", 3, pathlib.Path "out/images"),
                 w0))
    by (apply pair_eta_fst; vm_compute; reflexivity).
  assert (L : for_pages B (pathlib.Path (argv_at argv 1)) (pathlib.Path "out")
                (pathlib.Path "out/images")
                (pathlib.stem (pathlib.Path (argv_at argv 1))) 3
                (seq 0 1) [] w0
              = (Return ["out/a_page_001.md"], w_1))
    by (apply pair_eta_fst; vm_compute; reflexivity).
  assert (Pg : convert_page B (pathlib.Path (argv_at argv 1))
                 (pathlib.Path "out") (pathlib.Path "out/images")
                 (pathlib.stem (pathlib.Path (argv_at argv 1))) 3
                 ["out/a_page_001.md"] 1 w_1
               = (Raise (RuntimeError "cannot render page"), w_f))
    by (apply pair_eta_fst; vm_compute; reflexivity).
  assert (H1 : is_Some (node_at (fs w) (pathlib.Path (argv_at argv 1))))
    by (eexists; reflexivity).
  assert (H2 : Str.lower (pathlib.suffix (pathlib.Path (argv_at argv 1)))
               = ".pdf") by reflexivity.
  assert (H3 : 2 <= length argv) by (simpl; lia).
  assert (H4 : 1 < 3) by lia.
  destruct (main_after_page_failure B argv w _ _ _ _ _ _ _ _ _
              (failing_backend_confined 3 1) H3 H1 H2 P H4 L Pg)
    as (w' & M & So & _ & F).
  exists w'. split; [exact M|]. split.
  - rewrite So. replace (stdout w0) with
      ["Converting: a.pdf"; "Total pages: 3"; "Output directory: out";
       "Images directory: out/images"]
      by (unfold w0; vm_compute; reflexivity).
    reflexivity.
  - exact (F 0 (Nat.lt_0_succ 0)).
Defined.

(** X4. The returned paths name the files written.  After a call that
    returns, with a library confined to the images directory, the string
    at index [i] of the result, read as a path, lies directly in the
    output directory (the parent directory of the source when none was
    given) and denotes a regular file that holds exactly the text the
    library returned for page [i]. *)
Theorem returned_paths_name_page_files B s out w l w' :
  confined B ->
  convert_pdf_to_markdown B s out w = (Return l, w') ->
  exists od n imgs w0,
    prepare B (pathlib.Path s) out w = (Return (od, n, imgs), w0)
    /\ length l = n
    /\ forall i, i < n ->
         exists path acc_i w_i t,
           l !! i = Some path
           /\ pathlib.parent (pathlib.Path path)
              = output_dir_of (pathlib.Path s) out
           /\ for_pages B (pathlib.Path s) od imgs
                (pathlib.stem (pathlib.Path s)) n (seq 0 i) [] w0
              = (Return acc_i, w_i)
           /\ rendering B (pathlib.Path s) imgs i w_i = Return t
           /\ fs w' !! pathlib.Path path = Some (File t).
Proof.
  intros HB H.
  apply convert_Return in H
    as (_ & _ & od & n & imgs & w0 & w1 & P & L & ->).
  pose proof (PathFacts.stem_no_slash _ (PathFacts.wf_Path s)) as Hb.
  pose proof (prepare_Return _ _ _ _ _ _ _ _ P)
    as (w2 & _ & Eod & Eimgs & _).
  assert (Hwf : wf_path od) by (rewrite Eod; apply output_dir_of_wf).
  pose proof (for_pages_Return _ _ _ _ _ _ _ _ _ _ _ L) as (El & _).
  simpl in El.
  exists od, n, imgs, w0. split; [exact P|].
  split; [now rewrite El, length_map, length_seq|].
  intros i Hi.
  destruct (for_pages_written B _ od imgs _ n HB Eimgs Hwf Hb
              (seq 0 n) [] w0 l w1 i L (NoDup_seq 0 n))
    as (done & rest & acc_i & w_i & t & E & Li & R & F); [apply in_seq; lia|].
  apply seq_split_inv in E as (E1 & E2 & _). simpl in E2.
  exists (pathlib.str (page_path od (pathlib.stem (pathlib.Path s)) i)),
    acc_i, w_i, t.
  rewrite PathFacts.Path_str by now apply page_path_wf.
  split; [|split; [|split; [|split; [exact R | exact F]]]].
  - rewrite El, list_lookup_fmap, lookup_seq_lt by exact Hi. reflexivity.
  - rewrite PathFacts.page_path_parent by exact Hb. exact Eod.
  - rewrite E2, <- E1. exact Li.
Qed.

Lemma returned_paths_name_page_files_witness :
  let w := world_of [("docs/a.pdf", File "%PDF");
                     ("docs/a_page_002.md", File "old text")] in
  exists l w',
    convert_pdf_to_markdown (stub_backend 2) "docs/a.pdf" None w
    = (Return l, w')
    /\ l = ["docs/a_page_001.md"; "docs/a_page_002.md"]
    /\ fs w' !! pathlib.Path "docs/a_page_002.md"
       = Some (File "text of page 1").
Proof.
  intros w.
  computed_run
    (convert_pdf_to_markdown (stub_backend 2) "docs/a.pdf" None w)
    (Return ["docs/a_page_001.md"; "docs/a_page_002.md"]) C w'.
  exists ["docs/a_page_001.md"; "docs/a_page_002.md"], w'.
  split; [exact C|]. split; [reflexivity|].
  destruct (returned_paths_name_page_files _ _ _ _ _ _
              (stub_backend_confined 2) C)
    as (od & n & imgs & w0 & _ & Hn & Hall).
  cbn [length] in Hn. subst n.
  destruct (Hall 1 (Nat.lt_succ_diag_r 1))
    as (path & acc & w_1 & t & Hp & _ & _ & R & F).
  change (Some "docs/a_page_002.md" = Some path) in Hp.
  injection Hp as <-.
  change (Return ("text of page " +:+ Str.of_nat 1) = Return t) in R.
  injection R as <-. exact F.
Defined.

(** X5. The calls a returning run makes to the libraries: it opens the
    document once, then asks for each page once, alone and in ascending
    order, always with the path of the source and with the [images]
    subdirectory of the output directory. *)
Theorem library_call_protocol B s out w l w' :
  convert_pdf_to_markdown B s out w = (Return l, w') ->
  calls w' =
  calls w
  ++ CallOpen (pathlib.str (pathlib.Path s))
     :: map (fun i =>
               CallToMarkdown (pathlib.str (pathlib.Path s)) i
                 (pathlib.str
                    (pathlib.joinpath (output_dir_of (pathlib.Path s) out)
                       "images")))
          (seq 0 (length l)).
Proof.
  intros H.
  apply convert_Return in H
    as (_ & _ & od & n & imgs & w0 & w1 & P & L & ->).
  apply prepare_Return in P as (w2 & _ & -> & -> & _ & _ & _ & _ & _ & _ & Ca).
  apply for_pages_Return in L as (-> & _ & Ca1). simpl.
  rewrite Ca1, Ca, length_map, length_seq, <- app_assoc. reflexivity.
Qed.

Lemma library_call_protocol_witness :
  let w := world_of [("a.pdf", File "%PDF")] in
  exists l w',
    convert_pdf_to_markdown (stub_backend 2) "a.pdf" (Some "out") w
    = (Return l, w')
    /\ calls w' = [CallOpen "a.pdf";
                   CallToMarkdown "a.pdf" 0 "out/images";
                   CallToMarkdown "a.pdf" 1 "out/images"].
Proof.
  intros w.
  computed_run
    (convert_pdf_to_markdown (stub_backend 2) "a.pdf" (Some "out") w)
    (Return ["out/a_page_001.md"; "out/a_page_002.md"]) C w'.
  exists ["out/a_page_001.md"; "out/a_page_002.md"], w'.
  split; [exact C|].
  rewrite (library_call_protocol _ _ _ _ _ _ C). reflexivity.
Defined.

(** X6. What the function itself prints in a returning run.  Its [print]
    calls write, in this order: the four header lines (source, page count,
    output directory, images directory), one indented progress line per
    page in page order, and the summary line; the page count in them is
    the number of returned paths.  Lines the libraries print on their own
    during their calls are not part of [stdout] and are not covered. *)
Theorem transcript_of_returning_call B s out w l w' :
  convert_pdf_to_markdown B s out w = (Return l, w') ->
  stdout w' =
  stdout w
  ++ ["Converting: " +:+ pathlib.str (pathlib.Path s);
      "Total pages: " +:+ Str.of_nat (length l);
      "Output directory: "
        +:+ pathlib.str (output_dir_of (pathlib.Path s) out);
      "Images directory: "
        +:+ pathlib.str
              (pathlib.joinpath (output_dir_of (pathlib.Path s) out)
                 "images")]
  ++ map (fun i =>
            "  Page " +:+ Str.of_nat (i + 1) +:+ "/"
            +:+ Str.of_nat (length l) +:+ " -> " +:+
            (pathlib.stem (pathlib.Path s) +:+ "_page_"
             +:+ Str.format_03d (i + 1) +:+ ".md"))
       (seq 0 (length l))
  ++ ["Successfully converted " +:+ Str.of_nat (length l) +:+ " pages."].
Proof.
  intros H.
  apply convert_Return in H
    as (_ & _ & od & n & imgs & w0 & w1 & P & L & ->).
  apply prepare_Return in P as (w2 & _ & -> & -> & _ & _ & _ & _ & _ & So & _).
  apply for_pages_Return in L as (-> & So1 & _). simpl.
  rewrite So1, So, length_map, length_seq, <- !app_assoc. reflexivity.
Qed.

Lemma transcript_of_returning_call_witness :
  let w := world_of [("a.pdf", File "%PDF")] in
  exists l w',
    convert_pdf_to_markdown (blank_backend 2) "a.pdf" None w = (Return l, w')
    /\ stdout w' = ["Converting: a.pdf";
                    "Total pages: 2";
                    "Output directory: .";
                    "Images directory: images";
                    "  Page 1/2 -> a_page_001.md";
                    "  Page 2/2 -> a_page_002.md";
                    "Successfully converted 2 pages."].
Proof.
  intros w.
  computed_run
    (convert_pdf_to_markdown (blank_backend 2) "a.pdf" None w)
    (Return ["a_page_001.md"; "a_page_002.md"]) C w'.
  exists ["a_page_001.md"; "a_page_002.md"], w'. split; [exact C|].
  rewrite (transcript_of_returning_call _ _ _ _ _ _ C). reflexivity.
Defined.

(** X7. What a call leaves alone.  Whatever a call does, returning or
    raising at any point, an entry of the file system (regular file or
    directory) that is neither below the images directory nor the file of
    a page is afterwards what it was before: the function creates
    directories and page files and deletes nothing. *)
Theorem other_entries_untouched B s out w r w' q v :
  confined B ->
  convert_pdf_to_markdown B s out w = (r, w') ->
  fs w !! q = Some v ->
  ~ is_under (pathlib.joinpath (output_dir_of (pathlib.Path s) out) "images")
      q ->
  (forall j, q <> page_path (output_dir_of (pathlib.Path s) out)
                    (pathlib.stem (pathlib.Path s)) j) ->
  fs w' !! q = Some v.
Proof. apply convert_frame. Qed.

Lemma other_entries_untouched_witness :
  let w := world_of [("a.pdf", File "%PDF"); ("out", Dir);
                     ("out/a_page_3.md", File "mine")] in
  exists r w',
    convert_pdf_to_markdown (failing_backend 3 2) "a.pdf" (Some "out") w
    = (r, w')
    /\ r = Raise (RuntimeError "cannot render page")
    /\ fs w' !! pathlib.Path "out/a_page_3.md" = Some (File "mine").
Proof.
  intros w.
  computed_run
    (convert_pdf_to_markdown (failing_backend 3 2) "a.pdf" (Some "out") w)
    (@Raise (list string) (RuntimeError "cannot render page")) C w'.
  exists (Raise (RuntimeError "cannot render page")), w'.
  split; [exact C|]. split; [reflexivity|].
  apply (other_entries_untouched _ _ _ _ _ _ _ _
           (failing_backend_confined 3 2) C).
  - reflexivity.
  - intros (_ & [k Hk] & _). vm_compute in Hk. discriminate Hk.
  - intros j E.
    apply (f_equal (fun p => String.length (pathlib.name p))) in E.
    rewrite PathFacts.page_path_name in E by reflexivity.
    pose proof (PathFacts.output_filename_length
                  (pathlib.stem (pathlib.Path "a.pdf")) j) as Hl.
    rewrite <- E in Hl. vm_compute in Hl. lia.
Defined.

(** X8. No page file has the path of the source.  For a source that
    passed the extension check, the path of the file of any page, in the
    output directory the function settles on (the directory of the source
    when none is given), differs from the source path, and so does the
    string returned for it: the name of a page file ends in [.md].  So no
    list the function returns contains the source path.  This compares
    path names, as the function does; whether two names denote one file
    (through links) is outside it. *)
Theorem source_path_is_no_page_path s :
  Str.lower (pathlib.suffix (pathlib.Path s)) = ".pdf" ->
  (forall out i,
     page_path (output_dir_of (pathlib.Path s) out)
       (pathlib.stem (pathlib.Path s)) i
     <> pathlib.Path s
     /\ pathlib.str (page_path (output_dir_of (pathlib.Path s) out)
                       (pathlib.stem (pathlib.Path s)) i)
        <> pathlib.str (pathlib.Path s))
  /\ (forall B out w l w',
        convert_pdf_to_markdown B s out w = (Return l, w') ->
        ~ In (pathlib.str (pathlib.Path s)) l).
Proof.
  intros Hs.
  assert (G : forall out i,
            page_path (output_dir_of (pathlib.Path s) out)
              (pathlib.stem (pathlib.Path s)) i
            <> pathlib.Path s
            /\ pathlib.str (page_path (output_dir_of (pathlib.Path s) out)
                              (pathlib.stem (pathlib.Path s)) i)
               <> pathlib.str (pathlib.Path s)).
  { intros out i.
    assert (Hne : page_path (output_dir_of (pathlib.Path s) out)
                    (pathlib.stem (pathlib.Path s)) i <> pathlib.Path s).
    { intros E. symmetry in E. revert E. now apply source_is_no_page. }
    split; [exact Hne|]. intros E. apply Hne.
    rewrite <- (PathFacts.Path_str (page_path _ _ i)), E.
    - apply PathFacts.Path_str, PathFacts.wf_Path.
    - apply page_path_wf, output_dir_of_wf. }
  split; [exact G|].
  intros B out w l w' H. apply returned_paths in H as (n & _ & _ & _ & _ & ->).
  intros Hin. apply in_map_iff in Hin as (i & E & _).
  now apply (proj2 (G out i)).
Qed.

Lemma source_path_is_no_page_path_witness :
  Str.lower (pathlib.suffix (pathlib.Path "docs/Doc.PDF")) = ".pdf"
  /\ pathlib.str (page_path (pathlib.Path "docs") "Doc" 0)
     = "docs/Doc_page_001.md"
  /\ page_path (output_dir_of (pathlib.Path "docs/Doc.PDF") None)
       (pathlib.stem (pathlib.Path "docs/Doc.PDF")) 0
     <> pathlib.Path "docs/Doc.PDF".
Proof.
  assert (H : Str.lower (pathlib.suffix (pathlib.Path "docs/Doc.PDF"))
              = ".pdf") by reflexivity.
  split; [exact H|]. split; [reflexivity|].
  exact (proj1 (proj1 (source_path_is_no_page_path "docs/Doc.PDF" H)
                  None 0)).
Defined.

(** X9. The function rejects its own output.  Every path a call returned
    has the extension [.md]: given back as a source, wherever it exists,
    it is refused with [ValueError] and the world is left as it was. *)
Theorem output_is_rejected_as_input B s out w l w' path B2 out2 w2 :
  convert_pdf_to_markdown B s out w = (Return l, w') ->
  In path l ->
  is_Some (node_at (fs w2) (pathlib.Path path)) ->
  pathlib.suffix (pathlib.Path path) = ".md"
  /\ convert_pdf_to_markdown B2 path out2 w2 =
     (Raise (ValueError ("File does not appear to be a PDF: " +:+ path)), w2).
Proof.
  intros H Hin Hex.
  apply returned_paths in H as (n & _ & _ & _ & _ & ->).
  apply in_map_iff in Hin as (i & <- & _).
  pose proof (PathFacts.stem_no_slash _ (PathFacts.wf_Path s)) as Hb.
  assert (Hp : pathlib.Path
                 (pathlib.str
                    (page_path (output_dir_of (pathlib.Path s) out)
                       (pathlib.stem (pathlib.Path s)) i))
               = page_path (output_dir_of (pathlib.Path s) out)
                   (pathlib.stem (pathlib.Path s)) i)
    by (apply PathFacts.Path_str, page_path_wf, output_dir_of_wf).
  assert (Hs : pathlib.suffix
                 (pathlib.Path
                    (pathlib.str
                       (page_path (output_dir_of (pathlib.Path s) out)
                          (pathlib.stem (pathlib.Path s)) i))) = ".md")
    by (rewrite Hp; now apply page_path_suffix).
  split; [exact Hs|].
  rewrite (convert_not_pdf _ _ _ _ Hex) by (rewrite Hs; discriminate).
  now rewrite Hp.
Qed.

Lemma output_is_rejected_as_input_witness :
  let w := world_of [("a.pdf", File "%PDF")] in
  exists l w',
    convert_pdf_to_markdown (stub_backend 1) "a.pdf" None w = (Return l, w')
    /\ In "a_page_001.md" l
    /\ is_Some (node_at (fs w') (pathlib.Path "a_page_001.md"))
    /\ convert_pdf_to_markdown (stub_backend 1) "a_page_001.md" None w'
       = (Raise (ValueError
                   "File does not appear to be a PDF: a_page_001.md"), w').
Proof.
  intros w.
  computed_run
    (convert_pdf_to_markdown (stub_backend 1) "a.pdf" None w)
    (Return ["a_page_001.md"]) C w'.
  assert (Hin : In "a_page_001.md" ["a_page_001.md"]) by now left.
  assert (Hex : is_Some (node_at (fs w') (pathlib.Path "a_page_001.md")))
    by (exists (File "text of page 0"); vm_compute; reflexivity).
  exists ["a_page_001.md"], w'.
  split; [exact C|]. split; [exact Hin|]. split; [exact Hex|].
  exact (proj2 (output_is_rejected_as_input _ _ _ _ _ _ _
                  (stub_backend 1) None w' C Hin Hex)).
Defined.

(** X10. When the output directory cannot be created.  For a source that
    passes both checks, an exception raised while the output directory is
    created is raised by the function; nothing was printed and no library
    was called, not even to open the document; and the file system has at
    most gained directories (parents made before the failure stay).  When
    the output directory path is a regular file the exception is a
    [FileExistsError], since [exist_ok] accepts directories only, and the
    world is the initial one. *)
Theorem output_dir_creation_failure B s d w :
  is_Some (node_at (fs w) (pathlib.Path s)) ->
  Str.lower (pathlib.suffix (pathlib.Path s)) = ".pdf" ->
  (forall e w1,
     mkdir (pathlib.Path d) w = (Raise e, w1) ->
     convert_pdf_to_markdown B s (Some d) w = (Raise e, w1)
     /\ stdout w1 = stdout w
     /\ calls w1 = calls w
     /\ adds_dirs (fs w) (fs w1))
  /\ (forall t,
        node_at (fs w) (pathlib.Path d) = Some (File t) ->
        exists msg,
          convert_pdf_to_markdown B s (Some d) w
          = (Raise (FileExistsError msg), w)).
Proof.
  intros Hex Hs.
  assert (G : forall e w1,
            mkdir (pathlib.Path d) w = (Raise e, w1) ->
            convert_pdf_to_markdown B s (Some d) w = (Raise e, w1)).
  { intros e w1 K.
    rewrite (convert_validated _ _ _ _ Hex Hs), convert_valid_eq, prepare_eq.
    simpl. unfold bind. now rewrite K. }
  split.
  - intros e w1 K. split; [now apply G|].
    apply mkdir_like_mkdir in K as (So & Ca & Ad & _). auto.
  - intros t N. eexists. eapply G. exact (mkdir_on_file _ _ _ N).
Qed.

Lemma output_dir_creation_failure_witness :
  let w := world_of [("a.pdf", File "%PDF"); ("notes", File "text")] in
  is_Some (node_at (fs w) (pathlib.Path "a.pdf"))
  /\ Str.lower (pathlib.suffix (pathlib.Path "a.pdf")) = ".pdf"
  /\ mkdir (pathlib.Path "notes/out") w
     = (Raise (NotADirectoryError "notes/out"), w)
  /\ convert_pdf_to_markdown (stub_backend 2) "a.pdf" (Some "notes/out") w
     = (Raise (NotADirectoryError "notes/out"), w)
  /\ node_at (fs w) (pathlib.Path "notes") = Some (File "text")
  /\ exists msg,
       convert_pdf_to_markdown (stub_backend 2) "a.pdf" (Some "notes") w
       = (Raise (FileExistsError msg), w).
Proof.
  intros w.
  assert (H1 : is_Some (node_at (fs w) (pathlib.Path "a.pdf")))
    by (eexists; reflexivity).
  assert (H2 : Str.lower (pathlib.suffix (pathlib.Path "a.pdf")) = ".pdf")
    by reflexivity.
  assert (H3 : mkdir (pathlib.Path "notes/out") w
               = (Raise (NotADirectoryError "notes/out"), w))
    by reflexivity.
  assert (H4 : node_at (fs w) (pathlib.Path "notes") = Some (File "text"))
    by reflexivity.
  split; [exact H1|]. split; [exact H2|]. split; [exact H3|].
  split; [|split; [exact H4|]].
  - exact (proj1 (proj1 (output_dir_creation_failure (stub_backend 2) "a.pdf"
                           "notes/out" w H1 H2) _ _ H3)).
  - exact (proj2 (output_dir_creation_failure (stub_backend 2) "a.pdf"
                    "notes" w H1 H2) _ H4).
Defined.

(** X11. A failure before the first page.  For a source that passes both
    checks, when the preparation raises (directory creation or opening the
    document), the function raises the same exception and has printed
    nothing, not even the header; the file system has at most gained
    directories, and the library was asked at most to open the document,
    never to render a page. *)
Theorem preparation_failure_prints_nothing B s out w e w0 :
  is_Some (node_at (fs w) (pathlib.Path s)) ->
  Str.lower (pathlib.suffix (pathlib.Path s)) = ".pdf" ->
  prepare B (pathlib.Path s) out w = (Raise e, w0) ->
  convert_pdf_to_markdown B s out w = (Raise e, w0)
  /\ stdout w0 = stdout w
  /\ adds_dirs (fs w) (fs w0)
  /\ (calls w0 = calls w
      \/ calls w0 = calls w ++ [CallOpen (pathlib.str (pathlib.Path s))]).
Proof.
  intros Hex Hs P.
  split; [now rewrite (convert_validated _ _ _ _ Hex Hs), convert_valid_eq, P|].
  apply prepare_any in P as (Ad & Ca & So).
  split; [exact (So e eq_refl)|]. split; [exact Ad | exact Ca].
Qed.

Lemma preparation_failure_prints_nothing_witness :
  let w := world_of [("a.pdf", File "%PDF"); ("images", File "a picture")] in
  exists w0,
    is_Some (node_at (fs w) (pathlib.Path "a.pdf"))
    /\ Str.lower (pathlib.suffix (pathlib.Path "a.pdf")) = ".pdf"
    /\ prepare (stub_backend 2) (pathlib.Path "a.pdf") None w
       = (Raise (FileExistsError "images"), w0)
    /\ convert_pdf_to_markdown (stub_backend 2) "a.pdf" None w
       = (Raise (FileExistsError "images"), w0)
    /\ stdout w0 = []
    /\ calls w0 = [CallOpen "a.pdf"].
Proof.
  intros w.
  computed_run
    (prepare (stub_backend 2) (pathlib.Path "a.pdf") None w)
    (@Raise (PurePath * nat * PurePath) (FileExistsError "images")) P w0.
  assert (H1 : is_Some (node_at (fs w) (pathlib.Path "a.pdf")))
    by (eexists; reflexivity).
  assert (H2 : Str.lower (pathlib.suffix (pathlib.Path "a.pdf")) = ".pdf")
    by reflexivity.
  destruct (preparation_failure_prints_nothing _ _ _ _ _ _ H1 H2 P)
    as (C & So & _ & _).
  exists w0. split; [exact H1|]. split; [exact H2|]. split; [exact P|].
  split; [exact C|]. split; [exact So|].
  unfold w0. vm_compute. reflexivity.
Defined.

(** X12. Sorting the output by name.  For two pages with numbers up to
    999, the file name of the earlier page comes first in the order of
    strings, so listing the files of a document of at most 999 pages by
    name lists them in page order.  From page 1000 on this fails: the file
    name of page 1000 comes before the one of page 999. *)
Theorem file_names_sort_in_page_order base :
  (forall i j, i < j -> j < 999 ->
     String.ltb (output_filename base i) (output_filename base j) = true)
  /\ String.ltb (output_filename base 999) (output_filename base 998) = true.
Proof.
  unfold String.ltb, output_filename. split.
  - intros i j Hij Hj.
    destruct (format_03d_lt (i + 1) (j + 1)) as (Li & Lj & C); [lia..|].
    rewrite compare_app_l, compare_app_l.
    rewrite (compare_app_r _ _ ".md" ".md"); [reflexivity | congruence | exact C].
  - rewrite compare_app_l, compare_app_l. reflexivity.
Qed.

Lemma file_names_sort_in_page_order_witness :
  8 < 9 /\ 9 < 999
  /\ String.ltb "scan_page_009.md" "scan_page_010.md" = true
  /\ String.ltb "scan_page_1000.md" "scan_page_999.md" = true.
Proof.
  assert (H1 : 8 < 9) by lia. assert (H2 : 9 < 999) by lia.
  split; [exact H1|]. split; [exact H2|]. split.
  - exact (proj1 (file_names_sort_in_page_order "scan") 8 9 H1 H2).
  - exact (proj2 (file_names_sort_in_page_order "scan")).
Defined.
